(** * Control panel for fragment manipulation

    A shallow embedding of [src/ui/control_panel.py] (class [ControlPanel]).

    - The state is the panel's own attributes, the part of the Qt widget
      state the panel drives (enabled flags, blocked signals, label texts,
      style sheets, control values), the [Fragment] objects of the
      application, which the panel only refers to, and the log of the
      signals the panel has emitted.
    - A method is a function from a state to an outcome: it returns or it
      raises, and either way leaves a state behind.
    - Python floats are IEEE binary64 numbers ([PrimFloat.float]), Python
      ints are [Z], Python strings are [string]s holding their UTF-8
      encoding.
    - Qt itself is not part of the sources.  Its behaviour is written down
      where the panel relies on it: a widget is enabled only if its parent
      is, a blocked widget emits no signal, a value control emits its
      change signal when its value changes, and a spin box also when Return
      is pressed in it. *)

From Stdlib Require Import ZArith List String Ascii Bool Lia DecimalString.
From Stdlib Require Import Floats.
Import ListNotations.

Set Warnings "-register-all".

Local Open Scope Z_scope.
Local Open Scope string_scope.

(** ** Python values *)

Inductive exn : Set :=
| TypeError
| ValueError
| OverflowError
| AttributeError.

(** The third argument of [transform_requested] is declared [object]: the
    values the panel passes are [None], ints, floats, bools, tuples and the
    list of selected ids. *)
Inductive pyval : Type :=
| VNone
| VBool (b : bool)
| VInt (z : Z)
| VFloat (f : float)
| VStr (s : string)
| VTuple (items : list pyval)
| VStrList (items : list string).

(** [str(z)] for a Python int. *)
Definition str_of_int (z : Z) : string := NilZero.string_of_int (Z.to_int z).

(** The double nearest to an integer. *)
Definition nearest_float (z : Z) : float :=
  SF2Prim (binary_normalize prec emax z 0 false).

(** [float(z)] for a Python int, as [z / 100.0] converts its left operand:
    the nearest double, [OverflowError] when [z] is too large for one. *)
Definition float_of_int (z : Z) : exn + float :=
  match binary_normalize prec emax z 0 false with
  | S754_infinity _ => inl OverflowError
  | _ => inr (nearest_float z)
  end.

(** A float that is neither a NaN nor an infinity. *)
Definition finite (x : float) : bool :=
  match Prim2SF x with
  | S754_zero _ | S754_finite _ _ _ => true
  | S754_infinity _ | S754_nan => false
  end.

(** [int(x)] for a Python float: truncation toward zero, [ValueError] on a
    NaN and [OverflowError] on an infinity. *)
Definition int_of_float (x : float) : exn + Z :=
  match Prim2SF x with
  | S754_zero _ => inr 0
  | S754_finite s m e =>
      let a := Z.shiftl (Z.pos m) e in inr (if s then - a else a)
  | S754_infinity _ => inl OverflowError
  | S754_nan => inl ValueError
  end.

(** A Python [str] is kept as the bytes of its UTF-8 encoding, which is
    how the literals of the source file read here.  Python counts, iterates
    and slices characters, not bytes: a character is a byte that is not a
    continuation byte (10xxxxxx) together with the continuation bytes that
    follow it. *)
Definition is_continuation (c : ascii) : bool :=
  match c with
  | Ascii _ _ _ _ _ _ false true => true
  | _ => false
  end.

(** [len(s)] for a Python str. *)
Fixpoint str_len (s : string) : nat :=
  match s with
  | EmptyString => 0%nat
  | String c s' => if is_continuation c then str_len s' else S (str_len s')
  end.

(** [s[:n]] for a Python str: its first [n] characters, or all of it when
    it has fewer. *)
Fixpoint str_prefix (n : nat) (s : string) : string :=
  match s with
  | EmptyString => EmptyString
  | String c s' =>
      if is_continuation c then String c (str_prefix n s')
      else
        match n with
        | O => EmptyString
        | S n' => String c (str_prefix n' s')
        end
  end.

(** How many items iterating over a value yields; [None] when the value is
    not iterable.  Iterating over a str yields its characters. *)
Definition iter_length (v : pyval) : option nat :=
  match v with
  | VStr s => Some (str_len s)
  | VTuple items => Some (List.length items)
  | VStrList items => Some (List.length items)
  | VNone | VBool _ | VInt _ | VFloat _ => None
  end.

(** The unpacking [dx, dy = value]: [None] when it succeeds. *)
Definition unpack2 (v : pyval) : option exn :=
  match iter_length v with
  | None => Some TypeError
  | Some 2%nat => None
  | Some _ => Some ValueError
  end.

(** ** Fragments *)

Module Fragment.

(** Modelled from the spec: the class [Fragment] of [core/fragment.py] is
    imported by the panel but its declaration is not among the sources.
    The fields are the attributes the panel reads (spec, data model:
    identifier, display name, original dimensions, file path, position,
    rotation angle, flip flags, visibility flag, opacity).  A missing
    display name is the empty string: the panel only tests the name for
    truth. *)
Record t : Type := mk {
  id : string;
  name : string;
  original_size : Z * Z;
  file_path : string;
  x : float;
  y : float;
  rotation : float;
  flip_horizontal : bool;
  flip_vertical : bool;
  visible : bool;
  opacity : float
}.

Definition set_opacity (o : float) (f : t) : t :=
  mk (id f) (name f) (original_size f) (file_path f) (x f) (y f)
     (rotation f) (flip_horizontal f) (flip_vertical f) (visible f) o.

End Fragment.

(** Fragments are objects shared with the rest of the application: the panel
    holds a reference, and the fragment itself lives in a store. *)
Definition ref : Set := nat.
Definition store : Type := ref -> Fragment.t.

Definition store_update (h : store) (r : ref) (f : Fragment.t) : store :=
  fun r' => if Nat.eqb r' r then f else h r'.

(** ** Signals emitted by the panel *)

Inductive event : Type :=
| transform_requested (fragment_id transform_type : string) (value : pyval)
| reset_transform_requested (fragment_id : string).

(** ** Widgets *)

(** The widgets created by [setup_ui] and kept in attributes of the panel. *)
Inductive Widget : Set :=
| panel
| info_group | transform_group | position_group | display_group
| name_label | size_label | file_label
| rotate_ccw_btn | rotate_cw_btn
| angle_spinbox | angle_45_btn | angle_neg45_btn
| flip_h_btn | flip_v_btn | reset_btn
| x_spinbox | y_spinbox
| up_btn | left_btn | center_btn | right_btn | down_btn
| visible_checkbox | opacity_slider | opacity_label.

Definition Widget_eq_dec (a b : Widget) : {a = b} + {a <> b}.
Proof. decide equality. Defined.

Definition Widget_eqb (a b : Widget) : bool :=
  if Widget_eq_dec a b then true else false.

(** The widget tree built by the [setup_*] methods: each group box is added
    to the panel's layout, and every control is added to a layout installed
    on its group box (the arrow buttons through [translation_layout], which
    [setup_position_group] adds to the layout of [position_group]). *)
Definition parentWidget (w : Widget) : option Widget :=
  match w with
  | panel => None
  | info_group | transform_group | position_group | display_group => Some panel
  | name_label | size_label | file_label => Some info_group
  | rotate_ccw_btn | rotate_cw_btn
  | angle_spinbox | angle_45_btn | angle_neg45_btn
  | flip_h_btn | flip_v_btn | reset_btn => Some transform_group
  | x_spinbox | y_spinbox
  | up_btn | left_btn | center_btn | right_btn | down_btn => Some position_group
  | visible_checkbox | opacity_slider | opacity_label => Some display_group
  end.

(** Range and decimals of the three [QDoubleSpinBox]es, as [setRange] and
    [setDecimals] configure them. *)
Definition spin_range (w : Widget) : float * float :=
  match w with
  | angle_spinbox => ((-360)%float, 360%float)
  | _ => ((-999999)%float, 999999%float)
  end.

Definition spin_decimals (w : Widget) : nat := 1.

(** Range of the opacity [QSlider]. *)
Definition slider_minimum : Z := 0.
Definition slider_maximum : Z := 100.

(** [Qt.CheckState]. *)
Definition Unchecked : Z := 0.
Definition Checked : Z := 2.

(** ** The state *)

Definition upd {A : Type} (f : Widget -> A) (w : Widget) (a : A) : Widget -> A :=
  fun w' => if Widget_eqb w' w then a else f w'.

Record Panel : Type := mkPanel {
  (* attributes of the ControlPanel object *)
  current_fragment : option ref;
  selected_fragment_ids : list string;
  is_group_selected : bool;
  (* Qt state of the widgets *)
  force_disabled : Widget -> bool;   (* setEnabled(False) was the last call *)
  signals_blocked : Widget -> bool;  (* blockSignals *)
  text : Widget -> string;           (* QLabel texts *)
  style_sheet : Widget -> string;
  spin_value : Widget -> float;      (* QDoubleSpinBox.value() *)
  checkbox_checked : bool;           (* visible_checkbox.isChecked() *)
  slider_value : Z;                  (* opacity_slider.value() *)
  (* the rest of the application *)
  heap : store;                      (* the Fragment objects *)
  emitted : list event               (* signals emitted so far, oldest first *)
}.

Definition with_current_fragment (cf : option ref) (p : Panel) : Panel :=
  mkPanel cf (selected_fragment_ids p) (is_group_selected p)
    (force_disabled p) (signals_blocked p) (text p) (style_sheet p)
    (spin_value p) (checkbox_checked p) (slider_value p) (heap p) (emitted p).

Definition with_selected_fragment_ids (ids : list string) (p : Panel) : Panel :=
  mkPanel (current_fragment p) ids (is_group_selected p)
    (force_disabled p) (signals_blocked p) (text p) (style_sheet p)
    (spin_value p) (checkbox_checked p) (slider_value p) (heap p) (emitted p).

Definition with_is_group_selected (g : bool) (p : Panel) : Panel :=
  mkPanel (current_fragment p) (selected_fragment_ids p) g
    (force_disabled p) (signals_blocked p) (text p) (style_sheet p)
    (spin_value p) (checkbox_checked p) (slider_value p) (heap p) (emitted p).

(** The three selection attributes at once. *)
Definition with_selection (cf : option ref) (ids : list string) (g : bool)
    (p : Panel) : Panel :=
  mkPanel cf ids g (force_disabled p) (signals_blocked p) (text p)
    (style_sheet p) (spin_value p) (checkbox_checked p) (slider_value p)
    (heap p) (emitted p).

Definition with_force_disabled (fd : Widget -> bool) (p : Panel) : Panel :=
  mkPanel (current_fragment p) (selected_fragment_ids p) (is_group_selected p)
    fd (signals_blocked p) (text p) (style_sheet p) (spin_value p)
    (checkbox_checked p) (slider_value p) (heap p) (emitted p).

Definition with_signals_blocked (sb : Widget -> bool) (p : Panel) : Panel :=
  mkPanel (current_fragment p) (selected_fragment_ids p) (is_group_selected p)
    (force_disabled p) sb (text p) (style_sheet p) (spin_value p)
    (checkbox_checked p) (slider_value p) (heap p) (emitted p).

Definition with_text (tx : Widget -> string) (p : Panel) : Panel :=
  mkPanel (current_fragment p) (selected_fragment_ids p) (is_group_selected p)
    (force_disabled p) (signals_blocked p) tx (style_sheet p) (spin_value p)
    (checkbox_checked p) (slider_value p) (heap p) (emitted p).

Definition with_style_sheet (ss : Widget -> string) (p : Panel) : Panel :=
  mkPanel (current_fragment p) (selected_fragment_ids p) (is_group_selected p)
    (force_disabled p) (signals_blocked p) (text p) ss (spin_value p)
    (checkbox_checked p) (slider_value p) (heap p) (emitted p).

Definition with_spin_value (sv : Widget -> float) (p : Panel) : Panel :=
  mkPanel (current_fragment p) (selected_fragment_ids p) (is_group_selected p)
    (force_disabled p) (signals_blocked p) (text p) (style_sheet p) sv
    (checkbox_checked p) (slider_value p) (heap p) (emitted p).

Definition with_checkbox_checked (c : bool) (p : Panel) : Panel :=
  mkPanel (current_fragment p) (selected_fragment_ids p) (is_group_selected p)
    (force_disabled p) (signals_blocked p) (text p) (style_sheet p)
    (spin_value p) c (slider_value p) (heap p) (emitted p).

Definition with_slider_value (v : Z) (p : Panel) : Panel :=
  mkPanel (current_fragment p) (selected_fragment_ids p) (is_group_selected p)
    (force_disabled p) (signals_blocked p) (text p) (style_sheet p)
    (spin_value p) (checkbox_checked p) v (heap p) (emitted p).

Definition with_heap (h : store) (p : Panel) : Panel :=
  mkPanel (current_fragment p) (selected_fragment_ids p) (is_group_selected p)
    (force_disabled p) (signals_blocked p) (text p) (style_sheet p)
    (spin_value p) (checkbox_checked p) (slider_value p) h (emitted p).

Definition with_emitted (ev : list event) (p : Panel) : Panel :=
  mkPanel (current_fragment p) (selected_fragment_ids p) (is_group_selected p)
    (force_disabled p) (signals_blocked p) (text p) (style_sheet p)
    (spin_value p) (checkbox_checked p) (slider_value p) (heap p) ev.

Arguments with_current_fragment cf !p /.
Arguments with_selected_fragment_ids ids !p /.
Arguments with_is_group_selected g !p /.
Arguments with_selection cf ids g !p /.
Arguments with_force_disabled fd !p /.
Arguments with_signals_blocked sb !p /.
Arguments with_text tx !p /.
Arguments with_style_sheet ss !p /.
Arguments with_spin_value sv !p /.
Arguments with_checkbox_checked c !p /.
Arguments with_slider_value v !p /.
Arguments with_heap h !p /.
Arguments with_emitted ev !p /.

(** ** Methods as state transformers that may raise *)

(** A call either returns or raises; in both cases the panel is left in some
    state (an exception does not undo the assignments made before it). *)
Inductive outcome (A : Type) : Type :=
| Ok (a : A) (st : Panel)
| Raise (e : exn) (st : Panel).

Arguments Ok {A} a st.
Arguments Raise {A} e st.

Definition M (A : Type) : Type := Panel -> outcome A.

Definition ret {A : Type} (a : A) : M A := fun st => Ok a st.

Definition bind {A B : Type} (m : M A) (k : A -> M B) : M B :=
  fun st =>
    match m st with
    | Ok a st' => k a st'
    | Raise e st' => Raise e st'
    end.

Definition raise {A : Type} (e : exn) : M A := fun st => Raise e st.

Definition get : M Panel := fun st => Ok st st.

Definition modify (f : Panel -> Panel) : M unit := fun st => Ok tt (f st).

Definition lift {A : Type} (r : exn + A) : M A :=
  match r with
  | inl e => raise e
  | inr a => ret a
  end.

Declare Scope panel_scope.
Delimit Scope panel_scope with panel.

Notation "x <- m ;; k" := (bind m (fun x => k))
  (at level 61, m at next level, right associativity) : panel_scope.
Notation "m ;; k" := (bind m (fun _ => k))
  (at level 61, right associativity) : panel_scope.

Local Open Scope panel_scope.

(** [for a in l: body(a)]. *)
Fixpoint for_each {A : Type} (l : list A) (body : A -> M unit) : M unit :=
  match l with
  | [] => ret tt
  | a :: l' => body a ;; for_each l' body
  end.

(** The state a call leaves behind, whether it returned or raised. *)
Definition final {A : Type} (o : outcome A) : Panel :=
  match o with
  | Ok _ st => st
  | Raise _ st => st
  end.

(** ** Qt widget operations *)

(** [QWidget.setEnabled]. *)
Definition setEnabled (w : Widget) (enable : bool) : M unit :=
  modify (fun st => with_force_disabled (upd (force_disabled st) w (negb enable)) st).

(** [QWidget.isEnabled]: a widget is enabled when it was not explicitly
    disabled and its parent is enabled (disabling a widget implicitly
    disables its children, and a child cannot be enabled while its parent
    remains disabled).  The widget tree has three levels. *)
Fixpoint enabled_within (levels : nat) (forced : Widget -> bool) (w : Widget) : bool :=
  match levels with
  | O => false
  | S n =>
      negb (forced w) &&
      match parentWidget w with
      | None => true
      | Some p => enabled_within n forced p
      end
  end.

Definition isEnabled (st : Panel) (w : Widget) : bool :=
  enabled_within 3 (force_disabled st) w.

(** [QObject.blockSignals]. *)
Definition blockSignals (w : Widget) (b : bool) : M unit :=
  modify (fun st => with_signals_blocked (upd (signals_blocked st) w b) st).

(** [QLabel.setText]. *)
Definition setText (w : Widget) (s : string) : M unit :=
  modify (fun st => with_text (upd (text st) w s) st).

(** [QWidget.setStyleSheet]. *)
Definition setStyleSheet (w : Widget) (s : string) : M unit :=
  modify (fun st => with_style_sheet (upd (style_sheet st) w s) st).

(** [signal.emit(...)] on one of the panel's two signals. *)
Definition emit (e : event) : M unit :=
  modify (fun st => with_emitted (emitted st ++ [e]) st).

(** Reading an attribute of the fragment object behind a reference. *)
Definition attr {A : Type} (r : ref) (field : Fragment.t -> A) : M A :=
  st <- get ;; ret (field (heap st r)).

(** ** Requests *)

(** [ControlPanel.request_transform].  A [Fragment] object is true in a
    boolean context, so [elif self.current_fragment] tests for [None]. *)
Definition request_transform (transform_type : string) (value : pyval) : M unit :=
  st <- get ;;
  if is_group_selected st then
    if existsb (String.eqb transform_type) ["rotate_cw"; "rotate_ccw"] then
      emit (transform_requested "group" transform_type
              (VStrList (selected_fragment_ids st)))
    else if String.eqb transform_type "translate" then
      match unpack2 value with
      | Some e => raise e
      | None =>
          for_each (selected_fragment_ids st) (fun fragment_id =>
            emit (transform_requested fragment_id transform_type value))
      end
    else ret tt
  else
    match current_fragment st with
    | Some r =>
        fid <- attr r Fragment.id ;;
        emit (transform_requested fid transform_type value)
    | None => ret tt
    end.

(** [ControlPanel.request_reset]. *)
Definition request_reset : M unit :=
  st <- get ;;
  if is_group_selected st then
    for_each (selected_fragment_ids st) (fun fragment_id =>
      emit (reset_transform_requested fragment_id))
  else
    match current_fragment st with
    | Some r =>
        fid <- attr r Fragment.id ;;
        emit (reset_transform_requested fid)
    | None => ret tt
    end.

(** ** Slots of the value controls *)

(** [ControlPanel.on_position_changed]. *)
Definition on_position_changed : M unit :=
  st <- get ;;
  match current_fragment st with
  | Some r =>
      let new_x := spin_value st x_spinbox in
      let new_y := spin_value st y_spinbox in
      fx <- attr r Fragment.x ;;
      fy <- attr r Fragment.y ;;
      request_transform "translate"
        (VTuple [VFloat (new_x - fx)%float; VFloat (new_y - fy)%float])
  | None => ret tt
  end.

(** [ControlPanel.on_visibility_changed]. *)
Definition on_visibility_changed (state : Z) : M unit :=
  st <- get ;;
  match current_fragment st with
  | Some r =>
      let visible := Z.eqb state Checked in
      fid <- attr r Fragment.id ;;
      emit (transform_requested fid "set_visibility" (VBool visible))
  | None => ret tt
  end.

(** [ControlPanel.on_opacity_changed]: the fragment object itself is
    written to. *)
Definition on_opacity_changed (value : Z) : M unit :=
  st <- get ;;
  match current_fragment st with
  | Some r =>
      v <- lift (float_of_int value) ;;
      let opacity := (v / 100)%float in
      modify (fun st =>
        with_heap (store_update (heap st) r (Fragment.set_opacity opacity (heap st r))) st) ;;
      setText opacity_label (str_of_int value ++ "%")
  | None => ret tt
  end.

(** [ControlPanel.on_angle_changed]. *)
Definition on_angle_changed : M unit :=
  st <- get ;;
  match current_fragment st with
  | Some r =>
      let new_angle := spin_value st angle_spinbox in
      request_transform "set_rotation" (VFloat new_angle)
  | None => ret tt
  end.

(** The [clicked] connections made by the [setup_*] methods. *)
Definition clicked (button : Widget) : M unit :=
  match button with
  | rotate_ccw_btn => request_transform "rotate_ccw" VNone
  | rotate_cw_btn => request_transform "rotate_cw" VNone
  | angle_45_btn => request_transform "rotate_angle" (VInt 45)
  | angle_neg45_btn => request_transform "rotate_angle" (VInt (-45))
  | flip_h_btn => request_transform "flip_horizontal" VNone
  | flip_v_btn => request_transform "flip_vertical" VNone
  | reset_btn => request_reset
  | up_btn => request_transform "translate" (VTuple [VInt 0; VInt (-10)])
  | left_btn => request_transform "translate" (VTuple [VInt (-10); VInt 0])
  | center_btn => request_transform "translate" (VTuple [VInt 0; VInt 0])
  | right_btn => request_transform "translate" (VTuple [VInt 10; VInt 0])
  | down_btn => request_transform "translate" (VTuple [VInt 0; VInt 10])
  | _ => ret tt
  end.

(** The [valueChanged] connections of the spin boxes. *)
Definition valueChanged (w : Widget) : M unit :=
  match w with
  | x_spinbox | y_spinbox => on_position_changed
  | angle_spinbox => on_angle_changed
  | _ => ret tt
  end.

(** ** Value controls *)

(** [QCheckBox.setChecked] on [visible_checkbox]: [stateChanged] reaches its
    slot when the state changes and the signals are not blocked. *)
Definition QCheckBox_setChecked (b : bool) : M unit :=
  st <- get ;;
  if Bool.eqb (checkbox_checked st) b then ret tt
  else
    modify (with_checkbox_checked b) ;;
    if signals_blocked st visible_checkbox then ret tt
    else on_visibility_changed (if b then Checked else Unchecked).

(** [QSlider.setValue] on [opacity_slider]: the argument is a C [int], the
    value is bounded by the range, and [valueChanged] reaches its slot when
    the value changes and the signals are not blocked. *)
Definition QSlider_setValue (value : Z) : M unit :=
  if ((value <? - 2 ^ 31) || (2 ^ 31 <=? value))%Z then raise OverflowError
  else
    st <- get ;;
    let v := Z.max slider_minimum (Z.min slider_maximum value) in
    if Z.eqb (slider_value st) v then ret tt
    else
      modify (with_slider_value v) ;;
      if signals_blocked st opacity_slider then ret tt
      else on_opacity_changed v.

Definition checked_style : string := "QPushButton { background-color: #4a90e2; }".

(** [ControlPanel.update_transform_button_states]. *)
Definition update_transform_button_states : M unit :=
  st <- get ;;
  match current_fragment st with
  | None => ret tt
  | Some r =>
      fh <- attr r Fragment.flip_horizontal ;;
      (if fh then setStyleSheet flip_h_btn checked_style
       else setStyleSheet flip_h_btn "") ;;
      fv <- attr r Fragment.flip_vertical ;;
      (if fv then setStyleSheet flip_v_btn checked_style
       else setStyleSheet flip_v_btn "")
  end.

Section Controls.

(** What a [QDoubleSpinBox] with a given minimum, maximum and number of
    decimals makes of a value handed to [setValue]: Qt rounds the value to
    the decimals and bounds it by the range.  That is Qt's code, not the
    panel's, and it is a parameter here. *)
Variable spin_normalize : float -> float -> nat -> float -> float.

(** [QDoubleSpinBox.setValue]: [valueChanged] reaches its slot when the
    stored value changes and the signals are not blocked. *)
Definition QDoubleSpinBox_setValue (w : Widget) (val : float) : M unit :=
  st <- get ;;
  let old := spin_value st w in
  let v := spin_normalize (fst (spin_range w)) (snd (spin_range w))
             (spin_decimals w) val in
  modify (fun st => with_spin_value (upd (spin_value st) w v) st) ;;
  if PrimFloat.eqb old v || signals_blocked st w then ret tt
  else valueChanged w.

(** [QAbstractSpinBox.interpret] as the Return key runs it: the text in the
    box is read back into the value and, keyboard tracking being on (the
    panel leaves Qt's default), [valueChanged] is emitted whether or not
    the value changed. *)
Definition QAbstractSpinBox_interpret (w : Widget) (val : float) : M unit :=
  st <- get ;;
  let v := spin_normalize (fst (spin_range w)) (snd (spin_range w))
             (spin_decimals w) val in
  modify (fun st => with_spin_value (upd (spin_value st) w v) st) ;;
  if signals_blocked st w then ret tt
  else valueChanged w.

(** [ControlPanel.update_controls]. *)
Definition update_controls : M unit :=
  st <- get ;;
  let has_fragment :=
    match current_fragment st with Some _ => true | None => false end
    || is_group_selected st in
  setEnabled transform_group has_fragment ;;
  setEnabled position_group (has_fragment && negb (is_group_selected st)) ;;
  setEnabled display_group has_fragment ;;
  if is_group_selected st then
    setText name_label
      ("Group Selection ("
       ++ str_of_int (Z.of_nat (List.length (selected_fragment_ids st)))
       ++ " fragments)") ;;
    setText size_label "Size: Multiple" ;;
    setText file_label "File: Multiple" ;;
    setEnabled rotate_cw_btn true ;;
    setEnabled rotate_ccw_btn true ;;
    setEnabled angle_spinbox false ;;
    setEnabled angle_45_btn false ;;
    setEnabled angle_neg45_btn false ;;
    setEnabled x_spinbox false ;;
    setEnabled y_spinbox false ;;
    setEnabled flip_h_btn false ;;
    setEnabled flip_v_btn false ;;
    setEnabled up_btn true ;;
    setEnabled down_btn true ;;
    setEnabled left_btn true ;;
    setEnabled right_btn true ;;
    setEnabled center_btn true ;;
    setEnabled visible_checkbox false ;;
    setEnabled opacity_slider false
  else if has_fragment && negb (is_group_selected st) then
    match current_fragment st with
    | None => raise AttributeError
    | Some fragment =>
        setEnabled angle_spinbox true ;;
        setEnabled angle_45_btn true ;;
        setEnabled angle_neg45_btn true ;;
        setEnabled rotate_cw_btn true ;;
        setEnabled rotate_ccw_btn true ;;
        setEnabled flip_h_btn true ;;
        setEnabled flip_v_btn true ;;
        setEnabled x_spinbox true ;;
        setEnabled y_spinbox true ;;
        name <- attr fragment Fragment.name ;;
        id <- attr fragment Fragment.id ;;
        setText name_label
          (if String.eqb name "" then "Fragment " ++ str_prefix 8 id else name) ;;
        size <- attr fragment Fragment.original_size ;;
        setText size_label
          ("Size: " ++ str_of_int (fst size) ++ " × " ++ str_of_int (snd size)) ;;
        path <- attr fragment Fragment.file_path ;;
        setText file_label ("File: " ++ path) ;;
        setEnabled visible_checkbox true ;;
        setEnabled opacity_slider true ;;
        blockSignals x_spinbox true ;;
        blockSignals y_spinbox true ;;
        fx <- attr fragment Fragment.x ;;
        QDoubleSpinBox_setValue x_spinbox fx ;;
        fy <- attr fragment Fragment.y ;;
        QDoubleSpinBox_setValue y_spinbox fy ;;
        blockSignals x_spinbox false ;;
        blockSignals y_spinbox false ;;
        blockSignals angle_spinbox true ;;
        rot <- attr fragment Fragment.rotation ;;
        QDoubleSpinBox_setValue angle_spinbox rot ;;
        blockSignals angle_spinbox false ;;
        blockSignals visible_checkbox true ;;
        vis <- attr fragment Fragment.visible ;;
        QCheckBox_setChecked vis ;;
        blockSignals visible_checkbox false ;;
        blockSignals opacity_slider true ;;
        op <- attr fragment Fragment.opacity ;;
        percent <- lift (int_of_float (op * 100)%float) ;;
        QSlider_setValue percent ;;
        op' <- attr fragment Fragment.opacity ;;
        percent' <- lift (int_of_float (op' * 100)%float) ;;
        setText opacity_label (str_of_int percent' ++ "%") ;;
        blockSignals opacity_slider false ;;
        update_transform_button_states
    end
  else
    setText name_label "No selection" ;;
    setText size_label "Size: -" ;;
    setText file_label "File: -".

(** ** Selection *)

(** [ControlPanel.set_selected_fragment]. *)
Definition set_selected_fragment (fragment : option ref) : M unit :=
  modify (with_current_fragment fragment) ;;
  modify (with_selected_fragment_ids []) ;;
  modify (with_is_group_selected false) ;;
  update_controls.

(** [ControlPanel.set_selected_fragments].  The first fragment, when there
    is one, is kept for display. *)
Definition set_selected_fragments (fragment_ids : list string)
    (fragments : list ref) : M unit :=
  modify (with_selected_fragment_ids fragment_ids) ;;
  modify (with_is_group_selected (1 <? List.length fragment_ids)%nat) ;;
  modify (with_current_fragment
            match fragments with
            | [] => None
            | first :: _ => Some first
            end) ;;
  update_controls.

(** The widgets as [setup_ui] leaves them, before [__init__] calls
    [update_controls]. *)
Definition setup_ui (h : store) : Panel :=
  mkPanel None [] false
    (fun _ => false)
    (fun _ => false)
    (fun w => match w with
              | name_label => "No fragment selected"
              | size_label => "Size: -"
              | file_label => "File: -"
              | opacity_label => "100%"
              | _ => ""
              end)
    (fun w => match w with
              | name_label => "font-weight: bold; color: #4a90e2;"
              | reset_btn => "QPushButton { background-color: #d32f2f; }"
              | _ => ""
              end)
    (fun _ => 0%float)
    false
    100
    h
    [].

(** [ControlPanel.__init__], in an application whose fragments are [h]. *)
Definition init (h : store) : Panel := final (update_controls (setup_ui h)).

End Controls.

(** ** Every way the panel is driven *)

(** The calls the owning window makes, the slots Qt invokes, and what a user
    does to the controls.  A disabled widget takes no input.

    Typing into a spin box is a sequence of steps.  Each keystroke that
    leaves a text standing for [value] is a [user_edits_spinbox]: Qt stores
    the value and emits [valueChanged] if it changed; so is a step with the
    arrows or the wheel.  Return is a [user_confirms_spinbox]: Qt reads the
    text again and emits [valueChanged] unconditionally.  Typing "15" and
    Return into a box showing 10 is thus an edit to 1, an edit to 15 and a
    confirmation of 15. *)
Inductive call : Type :=
| call_set_selected_fragment (fragment : option ref)
| call_set_selected_fragments (fragment_ids : list string) (fragments : list ref)
| call_update_controls
| call_update_transform_button_states
| call_request_transform (transform_type : string) (value : pyval)
| call_request_reset
| call_on_position_changed
| call_on_visibility_changed (state : Z)
| call_on_opacity_changed (value : Z)
| call_on_angle_changed
| user_clicks (button : Widget)
| user_edits_spinbox (w : Widget) (value : float)
| user_confirms_spinbox (w : Widget) (value : float)
| user_toggles_checkbox (b : bool)
| user_moves_slider (value : Z).

Definition is_selection_call (c : call) : bool :=
  match c with
  | call_set_selected_fragment _ | call_set_selected_fragments _ _ => true
  | _ => false
  end.

Definition when_enabled (w : Widget) (m : M unit) : M unit :=
  st <- get ;; if isEnabled st w then m else ret tt.

Definition is_spinbox (w : Widget) : bool :=
  match w with
  | x_spinbox | y_spinbox | angle_spinbox => true
  | _ => false
  end.

Section Driving.

Variable spin_normalize : float -> float -> nat -> float -> float.

Definition perform (c : call) : M unit :=
  match c with
  | call_set_selected_fragment fragment =>
      set_selected_fragment spin_normalize fragment
  | call_set_selected_fragments fragment_ids fragments =>
      set_selected_fragments spin_normalize fragment_ids fragments
  | call_update_controls => update_controls spin_normalize
  | call_update_transform_button_states => update_transform_button_states
  | call_request_transform transform_type value =>
      request_transform transform_type value
  | call_request_reset => request_reset
  | call_on_position_changed => on_position_changed
  | call_on_visibility_changed state => on_visibility_changed state
  | call_on_opacity_changed value => on_opacity_changed value
  | call_on_angle_changed => on_angle_changed
  | user_clicks button => when_enabled button (clicked button)
  | user_edits_spinbox w value =>
      if is_spinbox w
      then when_enabled w (QDoubleSpinBox_setValue spin_normalize w value)
      else ret tt
  | user_confirms_spinbox w value =>
      if is_spinbox w
      then when_enabled w (QAbstractSpinBox_interpret spin_normalize w value)
      else ret tt
  | user_toggles_checkbox b =>
      when_enabled visible_checkbox (QCheckBox_setChecked b)
  | user_moves_slider value =>
      when_enabled opacity_slider (QSlider_setValue value)
  end.

(** The states the panel can be in: after construction, after any call
    (returning or raising), and after the application changed the
    fragments. *)
Inductive reachable : Panel -> Prop :=
| reachable_init (h : store) : reachable (init spin_normalize h)
| reachable_call (c : call) (st : Panel) :
    reachable st -> reachable (final (perform c st))
| reachable_world (h : store) (st : Panel) :
    reachable st -> reachable (with_heap h st).

End Driving.

(** The three attributes that make up the selection. *)
Definition selection (st : Panel) : option ref * list string * bool :=
  (current_fragment st, selected_fragment_ids st, is_group_selected st).

(** A computation that leaves the selection as it was, whether it returns
    or raises. *)
Definition keeps_selection {A : Type} (m : M A) : Prop :=
  forall st, selection (final (m st)) = selection st.

(** The translation each arrow button stands for, as the specification
    words it: ten units along one axis, and nothing for the centre button. *)
Definition spec_arrow_delta (button : Widget) : option (Z * Z) :=
  match button with
  | up_btn => Some (0, -10)
  | down_btn => Some (0, 10)
  | left_btn => Some (-10, 0)
  | right_btn => Some (10, 0)
  | center_btn => Some (0, 0)
  | _ => None
  end.

(** ** Sample data *)

(** A stand-in for Qt's spin box normalisation that bounds a value by the
    range and leaves its decimals alone. *)
Definition bound_only (lo hi : float) (decimals : nat) (v : float) : float :=
  if (v <? lo)%float then lo else if (hi <? v)%float then hi else v.

Definition fragment_a : Fragment.t :=
  Fragment.mk "a3f1c2d4e5b6" "" (640, 480) "/data/a.png"
    10 20 90 true false true 0.75.

Definition fragment_b : Fragment.t :=
  Fragment.mk "b7" "margin" (32, 16) "/data/b.png"
    (-4) 2.5 0 false false false 1.

Definition sample_heap : store :=
  fun r => if Nat.eqb r 1 then fragment_a else fragment_b.

Definition panel_fresh : Panel := init bound_only sample_heap.

Definition panel_single : Panel :=
  final (perform bound_only (call_set_selected_fragment (Some 1%nat)) panel_fresh).

Definition panel_group : Panel :=
  final (perform bound_only
           (call_set_selected_fragments ["a3f1c2d4e5b6"; "b7"] [1%nat; 2%nat])
           panel_fresh).

(** The single selection after the X spin box took the value 15, as its
    slot finds it. *)
Definition panel_single_x15 : Panel :=
  with_spin_value (upd (spin_value panel_single) x_spinbox 15%float) panel_single.

(** ** Further notions used by the properties below *)

(** A computation that keeps a property of the state, whether it returns or
    raises. *)
Definition preserves {A : Type} (P : Panel -> Prop) (m : M A) : Prop :=
  forall st, P st -> P (final (m st)).

(** The widgets on which no method of the panel ever calls
    [setEnabled(False)]. *)
Definition never_disabled_widgets : list Widget :=
  [panel; info_group; name_label; size_label; file_label; reset_btn;
   up_btn; down_btn; left_btn; right_btn; center_btn; opacity_label].

Definition never_forced (st : Panel) : bool :=
  forallb (fun w => negb (force_disabled st w)) never_disabled_widgets.

(** What [setRange(0, 100)] promises of the opacity slider. *)
Definition slider_in_range (st : Panel) : Prop :=
  slider_minimum <= slider_value st <= slider_maximum.

(** The actions of a user, as opposed to calls made by the program. *)
Definition is_user_input (c : call) : bool :=
  match c with
  | user_clicks _ | user_edits_spinbox _ _ | user_confirms_spinbox _ _
  | user_toggles_checkbox _ | user_moves_slider _ => true
  | _ => false
  end.

(** The calls that can reach [on_opacity_changed] with live signals. *)
Definition is_opacity_call (c : call) : bool :=
  match c with
  | call_on_opacity_changed _ | user_moves_slider _ => true
  | _ => false
  end.

(** The opacities of the data model: 0.0 to 1.0. *)
Definition in_unit_interval (o : float) : bool :=
  ((0 <=? o) && (o <=? 1))%float.

(** The slider values whose opacity [v / 100.0] does not read back as [v]
    through [int(opacity * 100)]. *)
Definition percents_that_drift : list Z := [29; 57; 58].

Definition reads_back (v : Z) : Z :=
  if existsb (Z.eqb v) percents_that_drift then v - 1 else v.

(** A fragment whose opacity is not a number, and a store holding it. *)
Definition fragment_nan : Fragment.t :=
  Fragment.mk "c9" "torn" (8, 8) "/data/c.png" 1 2 3 true true true nan.

Definition broken_heap : store :=
  fun r => if Nat.eqb r 1 then fragment_nan else fragment_b.

Definition panel_fresh_broken : Panel := init bound_only broken_heap.

(** A fragment without a name whose id is not ASCII, and a store holding
    it. *)
Definition fragment_accented : Fragment.t :=
  Fragment.mk "éèàùâêîôûç-42" "" (4, 4) "/data/é.png" 0 0 0 false false true 0.5.

Definition accented_heap : store :=
  fun r => if Nat.eqb r 1 then fragment_accented else fragment_b.

Definition panel_fresh_accented : Panel := init bound_only accented_heap.

(** * Properties *)

(** ** Basic facts *)

Lemma with_emitted_same (st : Panel) : with_emitted (emitted st) st = st.
Proof. destruct st; reflexivity. Qed.

Lemma for_each_emit {A : Type} (g : A -> event) (l : list A) (st : Panel) :
  for_each l (fun a => emit (g a)) st
  = Ok tt (with_emitted (emitted st ++ map g l) st).
Proof.
  revert st; induction l as [|a l IH]; intros st; simpl.
  - rewrite app_nil_r, with_emitted_same; reflexivity.
  - unfold bind, emit, modify; rewrite IH; simpl.
    rewrite <- app_assoc; reflexivity.
Qed.

Lemma isEnabled_rule (st : Panel) (w : Widget) :
  isEnabled st w
  = negb (force_disabled st w)
    && match parentWidget w with
       | None => true
       | Some p => isEnabled st p
       end.
Proof. destruct w; reflexivity. Qed.

Lemma isEnabled_parent (st : Panel) (w p : Widget) :
  parentWidget w = Some p -> isEnabled st p = false -> isEnabled st w = false.
Proof.
  intros Hp Hd; rewrite isEnabled_rule, Hp, Hd; apply andb_false_r.
Qed.

(** ** Requests *)

Lemma request_transform_group_rotate (st : Panel) (k : string) (v : pyval) :
  is_group_selected st = true ->
  k = "rotate_cw" \/ k = "rotate_ccw" ->
  request_transform k v st
  = Ok tt (with_emitted
             (emitted st
              ++ [transform_requested "group" k (VStrList (selected_fragment_ids st))])
             st).
Proof.
  intros Hg [-> | ->]; unfold request_transform, bind, get; rewrite Hg; reflexivity.
Qed.

Lemma request_transform_group_translate (st : Panel) (v : pyval) :
  is_group_selected st = true ->
  unpack2 v = None ->
  request_transform "translate" v st
  = Ok tt (with_emitted
             (emitted st
              ++ map (fun i => transform_requested i "translate" v)
                   (selected_fragment_ids st))
             st).
Proof.
  intros Hg Hv; unfold request_transform, bind, get; rewrite Hg; simpl.
  rewrite Hv; apply for_each_emit.
Qed.

Lemma request_transform_single (st : Panel) (r : ref) (k : string) (v : pyval) :
  is_group_selected st = false ->
  current_fragment st = Some r ->
  request_transform k v st
  = Ok tt (with_emitted
             (emitted st ++ [transform_requested (Fragment.id (heap st r)) k v]) st).
Proof.
  intros Hg Hc; unfold request_transform, bind, get; rewrite Hg, Hc; reflexivity.
Qed.

Lemma request_transform_none (st : Panel) (k : string) (v : pyval) :
  is_group_selected st = false ->
  current_fragment st = None ->
  request_transform k v st = Ok tt st.
Proof.
  intros Hg Hc; unfold request_transform, bind, get; rewrite Hg, Hc; reflexivity.
Qed.

(** C2: when a group is selected, [rotate_cw] and [rotate_ccw] each emit
    exactly one [transform_requested] addressed to the marker ["group"] and
    carrying the whole list of selected ids, and [translate] with a delta
    [(dx, dy)] emits exactly one [transform_requested] per selected id, in
    order, each carrying that same delta. *)
Theorem group_rotation_one_event_translation_per_member (st : Panel) :
  is_group_selected st = true ->
  (forall k v, k = "rotate_cw" \/ k = "rotate_ccw" ->
     request_transform k v st
     = Ok tt (with_emitted
                (emitted st
                 ++ [transform_requested "group" k
                       (VStrList (selected_fragment_ids st))])
                st))
  /\ (forall dx dy,
        request_transform "translate" (VTuple [dx; dy]) st
        = Ok tt (with_emitted
                   (emitted st
                    ++ map (fun i =>
                              transform_requested i "translate" (VTuple [dx; dy]))
                         (selected_fragment_ids st))
                   st)).
Proof.
  intros Hg; split.
  - intros k v Hk; apply request_transform_group_rotate; assumption.
  - intros dx dy; apply request_transform_group_translate; [assumption | reflexivity].
Qed.

Lemma group_rotation_one_event_translation_per_member_witness :
  emitted panel_group = []
  /\ selected_fragment_ids panel_group = ["a3f1c2d4e5b6"; "b7"]
  /\ emitted (final (request_transform "rotate_cw" VNone panel_group))
     = [transform_requested "group" "rotate_cw" (VStrList ["a3f1c2d4e5b6"; "b7"])]
  /\ emitted (final (request_transform "translate" (VTuple [VInt 0; VInt 10])
                       panel_group))
     = [transform_requested "a3f1c2d4e5b6" "translate" (VTuple [VInt 0; VInt 10]);
        transform_requested "b7" "translate" (VTuple [VInt 0; VInt 10])].
Proof.
  destruct (group_rotation_one_event_translation_per_member panel_group eq_refl)
    as [Hrot Htr].
  refine (conj eq_refl (conj eq_refl (conj _ _))).
  - rewrite (Hrot "rotate_cw" VNone (or_introl eq_refl)); reflexivity.
  - rewrite (Htr (VInt 0) (VInt 10)); reflexivity.
Defined.

(** C10: when a group is selected, [request_transform] with any kind other
    than [rotate_cw], [rotate_ccw] and [translate] returns without raising,
    emits nothing and leaves the whole state as it was. *)
Theorem group_drops_other_transforms (st : Panel) (k : string) (v : pyval) :
  is_group_selected st = true ->
  k <> "rotate_cw" -> k <> "rotate_ccw" -> k <> "translate" ->
  request_transform k v st = Ok tt st.
Proof.
  intros Hg Hcw Hccw Htr.
  unfold request_transform, bind, get; rewrite Hg; simpl.
  apply String.eqb_neq in Hcw, Hccw, Htr.
  rewrite Hcw, Hccw, Htr; reflexivity.
Qed.

Lemma group_drops_other_transforms_witness :
  request_transform "flip_horizontal" VNone panel_group = Ok tt panel_group
  /\ request_transform "flip_vertical" VNone panel_group = Ok tt panel_group
  /\ request_transform "rotate_angle" (VInt 45) panel_group = Ok tt panel_group
  /\ request_transform "set_rotation" (VFloat 30) panel_group = Ok tt panel_group
  /\ request_transform "set_visibility" (VBool false) panel_group = Ok tt panel_group.
Proof.
  refine (conj _ (conj _ (conj _ (conj _ _))));
    apply group_drops_other_transforms;
    solve [reflexivity | intro H; discriminate H].
Defined.

(** ** Requests without a selection *)

(** C6: with no fragment and no group selected, [request_transform] (for
    every kind and value), [request_reset], the four slots of the value
    controls and every button's [clicked] slot return without raising, emit
    no signal and leave the state as it was. *)
Theorem no_selection_no_events (st : Panel) :
  current_fragment st = None ->
  is_group_selected st = false ->
  (forall k v, request_transform k v st = Ok tt st)
  /\ request_reset st = Ok tt st
  /\ on_position_changed st = Ok tt st
  /\ (forall state, on_visibility_changed state st = Ok tt st)
  /\ (forall value, on_opacity_changed value st = Ok tt st)
  /\ on_angle_changed st = Ok tt st
  /\ (forall button, clicked button st = Ok tt st).
Proof.
  intros Hc Hg.
  assert (Hrt : forall k v, request_transform k v st = Ok tt st)
    by (intros; apply request_transform_none; assumption).
  assert (Hrr : request_reset st = Ok tt st)
    by (unfold request_reset, bind, get; rewrite Hg, Hc; reflexivity).
  repeat split; try assumption.
  - unfold on_position_changed, bind, get; rewrite Hc; reflexivity.
  - intros; unfold on_visibility_changed, bind, get; rewrite Hc; reflexivity.
  - intros; unfold on_opacity_changed, bind, get; rewrite Hc; reflexivity.
  - unfold on_angle_changed, bind, get; rewrite Hc; reflexivity.
  - intros button; destruct button; simpl; solve [reflexivity | apply Hrt | apply Hrr].
Qed.

Lemma no_selection_no_events_witness :
  request_transform "translate" (VTuple [VInt 5; VInt 0]) panel_fresh
  = Ok tt panel_fresh
  /\ request_reset panel_fresh = Ok tt panel_fresh.
Proof.
  destruct (no_selection_no_events panel_fresh eq_refl eq_refl)
    as (Hrt & Hrr & _).
  exact (conj (Hrt "translate" (VTuple [VInt 5; VInt 0])) Hrr).
Defined.

(** ** Arrow buttons *)

(** C8: each arrow button's [clicked] slot requests the translation the
    specification gives for it: [up] by (0, -10), [down] by (0, 10), [left]
    by (-10, 0), [right] by (10, 0), each ten units along one axis only, and
    the centre button [translate] with (0, 0).  Whatever is selected, the
    click is that request: with a single fragment selected it emits one
    [translate] event with this delta for the fragment, with a group one per
    member, and with nothing selected none. *)
Theorem arrow_buttons_request_fixed_translations
    (button : Widget) (dx dy : Z) (st : Panel) :
  spec_arrow_delta button = Some (dx, dy) ->
  clicked button st = request_transform "translate" (VTuple [VInt dx; VInt dy]) st
  /\ (button = center_btn /\ dx = 0 /\ dy = 0
      \/ button <> center_btn /\ dx = 0 /\ Z.abs dy = 10
      \/ button <> center_btn /\ dy = 0 /\ Z.abs dx = 10)
  /\ (forall r, is_group_selected st = false -> current_fragment st = Some r ->
        clicked button st
        = Ok tt (with_emitted
                   (emitted st
                    ++ [transform_requested (Fragment.id (heap st r)) "translate"
                          (VTuple [VInt dx; VInt dy])])
                   st))
  /\ (is_group_selected st = true ->
        clicked button st
        = Ok tt (with_emitted
                   (emitted st
                    ++ map (fun i => transform_requested i "translate"
                                       (VTuple [VInt dx; VInt dy]))
                         (selected_fragment_ids st))
                   st))
  /\ (is_group_selected st = false -> current_fragment st = None ->
        clicked button st = Ok tt st).
Proof.
  intros Hb.
  assert (Hc : clicked button st
               = request_transform "translate" (VTuple [VInt dx; VInt dy]) st)
    by (destruct button; simpl in Hb; try discriminate Hb;
        injection Hb as <- <-; reflexivity).
  split; [exact Hc |]; split.
  - destruct button; simpl in Hb; try discriminate Hb; injection Hb as <- <-;
      solve [ left; repeat split
            | right; left; repeat split; discriminate
            | right; right; repeat split; discriminate ].
  - rewrite Hc; repeat split.
    + intros r Hg Hr; apply request_transform_single; assumption.
    + intros Hg; apply request_transform_group_translate; [assumption | reflexivity].
    + intros Hg Hn; apply request_transform_none; assumption.
Qed.

Lemma arrow_buttons_request_fixed_translations_witness :
  clicked up_btn panel_single
  = request_transform "translate" (VTuple [VInt 0; VInt (-10)]) panel_single
  /\ clicked right_btn panel_single
     = request_transform "translate" (VTuple [VInt 10; VInt 0]) panel_single.
Proof.
  exact (conj
    (proj1 (arrow_buttons_request_fixed_translations up_btn 0 (-10) panel_single eq_refl))
    (proj1 (arrow_buttons_request_fixed_translations right_btn 10 0 panel_single eq_refl))).
Defined.

(** ** Edits of a single fragment *)

Lemma float_of_int_slider_range (v : Z) :
  0 <= v <= 100 -> float_of_int v = inr (nearest_float v).
Proof.
  intros Hv.
  assert (Hall : forallb (fun n => match float_of_int (Z.of_nat n) with
                                   | inr f => PrimFloat.eqb f f
                                   | inl _ => false
                                   end) (seq 0 101) = true)
    by (vm_compute; reflexivity).
  rewrite forallb_forall in Hall.
  specialize (Hall (Z.to_nat v)).
  rewrite Z2Nat.id in Hall by lia.
  assert (Hin : In (Z.to_nat v) (seq 0 101)) by (apply in_seq; lia).
  apply Hall in Hin.
  unfold float_of_int in *.
  destruct (binary_normalize prec emax v 0 false); solve [reflexivity | discriminate Hin].
Qed.

Lemma float_sub_diag (v : float) : finite v = true -> (v - v)%float = 0%float.
Proof.
  unfold finite; intros Hv.
  apply Prim2SF_inj; rewrite sub_spec.
  destruct (Prim2SF v) as [s | s | | s m e]; try discriminate Hv.
  - destruct s; reflexivity.
  - unfold SF64sub, SFsub; rewrite Z.sub_diag; reflexivity.
Qed.

(** C5: with a fragment selected, the slot of the opacity slider called with
    a slider value [v] (0 to 100) writes [v / 100.0] into the opacity field
    of the fragment object the panel refers to (and into nothing else of the
    store), sets the percentage label to [v] followed by a percent sign, and
    emits no signal.  For [v = 50] the field becomes 0.5 and the label
    "50%". *)
Theorem opacity_slider_writes_fragment
    (st : Panel) (r : ref) (v : Z) :
  current_fragment st = Some r ->
  0 <= v <= 100 ->
  exists st',
    on_opacity_changed v st = Ok tt st'
    /\ Fragment.opacity (heap st' r) = (nearest_float v / 100)%float
    /\ heap st'
       = store_update (heap st) r
           (Fragment.set_opacity (nearest_float v / 100)%float (heap st r))
    /\ text st' opacity_label = str_of_int v ++ "%"
    /\ emitted st' = emitted st.
Proof.
  intros Hc Hv.
  unfold on_opacity_changed, bind, get; rewrite Hc.
  rewrite (float_of_int_slider_range v Hv); simpl.
  eexists; split; [reflexivity |]; simpl.
  unfold store_update; rewrite Nat.eqb_refl; repeat split.
Qed.

Lemma opacity_slider_writes_fragment_witness :
  exists st',
    Fragment.opacity (heap panel_single 1%nat) = 0.75%float
    /\ on_opacity_changed 50 panel_single = Ok tt st'
    /\ Fragment.opacity (heap st' 1%nat) = 0.5%float
    /\ text st' opacity_label = "50%"
    /\ emitted st' = emitted panel_single.
Proof.
  destruct (opacity_slider_writes_fragment panel_single 1%nat 50 eq_refl
              (conj (proj1 (Z.leb_le 0 50) eq_refl) (proj1 (Z.leb_le 50 100) eq_refl)))
    as (st' & Hrun & Hop & _ & Htext & Hev).
  exists st'.
  exact (conj eq_refl (conj Hrun (conj Hop (conj Htext Hev)))).
Defined.

(** The same through the slider with its signals live: dragging it from 75
    to 50 stores the value and calls the slot. *)
Example user_moves_slider_to_50 :
  let st' := final (perform bound_only (user_moves_slider 50) panel_single) in
  slider_value panel_single = 75
  /\ slider_value st' = 50
  /\ Fragment.opacity (heap st' 1%nat) = 0.5%float
  /\ text st' opacity_label = "50%"
  /\ emitted st' = [].
Proof. repeat split. Qed.

(** C3: with a single fragment selected, the slot of the position spin boxes
    emits exactly one event, a [translate] for that fragment whose delta is,
    on each axis, the value the spin box now holds minus the fragment's
    current coordinate; no absolute position is sent.  In particular, for a
    fragment at x = 10 whose X field was edited to 15 while the Y field
    still holds the fragment's y, the delta is (5, 0). *)
Theorem position_edit_emits_relative_translate (st : Panel) (r : ref) :
  is_group_selected st = false ->
  current_fragment st = Some r ->
  on_position_changed st
  = Ok tt (with_emitted
             (emitted st
              ++ [transform_requested (Fragment.id (heap st r)) "translate"
                    (VTuple
                       [VFloat (spin_value st x_spinbox - Fragment.x (heap st r))%float;
                        VFloat (spin_value st y_spinbox - Fragment.y (heap st r))%float])])
             st)
  /\ (Fragment.x (heap st r) = 10%float ->
      spin_value st x_spinbox = 15%float ->
      spin_value st y_spinbox = Fragment.y (heap st r) ->
      finite (Fragment.y (heap st r)) = true ->
      on_position_changed st
      = Ok tt (with_emitted
                 (emitted st
                  ++ [transform_requested (Fragment.id (heap st r)) "translate"
                        (VTuple [VFloat 5; VFloat 0])])
                 st)).
Proof.
  intros Hg Hc.
  assert (Hrun : on_position_changed st
                 = request_transform "translate"
                     (VTuple
                        [VFloat (spin_value st x_spinbox - Fragment.x (heap st r))%float;
                         VFloat (spin_value st y_spinbox - Fragment.y (heap st r))%float])
                     st)
    by (unfold on_position_changed, bind, get, attr; rewrite Hc; reflexivity).
  rewrite Hrun, (request_transform_single st r _ _ Hg Hc).
  split; [reflexivity |].
  intros Hx Hnx Hny Hfin.
  rewrite Hx, Hnx, Hny, (float_sub_diag _ Hfin).
  reflexivity.
Qed.

Lemma position_edit_emits_relative_translate_witness :
  emitted (final (on_position_changed panel_single_x15))
  = [transform_requested "a3f1c2d4e5b6" "translate" (VTuple [VFloat 5; VFloat 0])].
Proof.
  rewrite (proj2 (position_edit_emits_relative_translate panel_single_x15 1%nat
                    eq_refl eq_refl)
             eq_refl eq_refl eq_refl eq_refl).
  reflexivity.
Defined.

(** The same edit made through the spin box with its signals live: Qt
    stores the value and calls the slot. *)
Example user_edit_of_x_emits_delta :
  emitted (final (perform bound_only (user_edits_spinbox x_spinbox 15) panel_single))
  = [transform_requested "a3f1c2d4e5b6" "translate" (VTuple [VFloat 5; VFloat 0])].
Proof. reflexivity. Qed.

(** ** Characters of a Python str *)

Lemma str_len_prefix (n : nat) (s : string) :
  str_len (str_prefix n s) = Nat.min n (str_len s).
Proof.
  revert n; induction s as [| c s IH]; intros n; simpl.
  - destruct n; reflexivity.
  - destruct (is_continuation c) eqn:Hc; simpl.
    + rewrite Hc; apply IH.
    + destruct n as [| n]; simpl; [reflexivity |].
      rewrite Hc, IH; reflexivity.
Qed.

Lemma str_prefix_all (n : nat) (s : string) :
  (str_len s <= n)%nat -> str_prefix n s = s.
Proof.
  revert n; induction s as [| c s IH]; intros n; simpl; [reflexivity |].
  destruct (is_continuation c); intros H.
  - rewrite IH by exact H; reflexivity.
  - destruct n as [| n]; [inversion H |].
    rewrite IH by (apply le_S_n; exact H); reflexivity.
Qed.

(** On ASCII text characters are bytes. *)
Lemma str_ascii (s : string) :
  forallb (fun c => negb (is_continuation c)) (list_ascii_of_string s) = true ->
  str_len s = String.length s
  /\ forall n, str_prefix n s = substring 0 n s.
Proof.
  induction s as [| c s IH]; simpl.
  - intros _; split; [reflexivity | intros [| n]; reflexivity].
  - intros H; apply andb_prop in H; destruct H as [Hc Hs].
    apply negb_true_iff in Hc; rewrite Hc.
    destruct (IH Hs) as [Hlen Hpre].
    split; [rewrite Hlen; reflexivity |].
    intros [| n]; [reflexivity | rewrite Hpre; reflexivity].
Qed.

Example characters_not_bytes :
  str_len "éé" = 2%nat
  /\ String.length "éé" = 4%nat
  /\ str_prefix 8 "éèàùâêîôûç-42" = "éèàùâêîô"
  /\ unpack2 (VStr "éé") = None
  /\ unpack2 (VStr "abc") = Some ValueError.
Proof. repeat split. Qed.

(** ** Opacities of the data model *)

Lemma digits2_pos_size (m : positive) : digits2_pos m = Pos.size m.
Proof. induction m; simpl; congruence. Qed.

Lemma digits2_pos_gt (m : positive) : Z.pos m < 2 ^ Z.pos (digits2_pos m).
Proof.
  rewrite digits2_pos_size.
  pose proof (Pos.size_gt m) as H.
  apply Pos2Z.pos_lt_pos in H.
  rewrite Pos2Z.inj_pow in H. exact H.
Qed.

Lemma digits2_pos_le (m : positive) : 2 ^ Z.pos (digits2_pos m) <= 2 * Z.pos m.
Proof.
  rewrite digits2_pos_size.
  pose proof (Pos.size_le m) as H.
  apply Pos2Z.pos_le_pos in H.
  rewrite Pos2Z.inj_pow in H. exact H.
Qed.

Lemma Zdigits2_le (m k : Z) : 0 <= m < 2 ^ k -> 0 <= k -> Zdigits2 m <= k.
Proof.
  intros [Hm Hlt] Hk.
  destruct m as [| p | p]; simpl; [lia | | lia].
  pose proof (digits2_pos_le p) as Hle.
  assert (H : 2 ^ Z.pos (digits2_pos p) < 2 ^ (k + 1)).
  { rewrite Z.pow_add_r by lia. lia. }
  apply Z.pow_lt_mono_r_iff in H; lia.
Qed.

Lemma shr_1_m (mrs : shr_record) :
  0 <= shr_m mrs -> shr_m (shr_1 mrs) = shr_m mrs / 2.
Proof.
  destruct mrs as [m r s]; simpl.
  destruct m as [| [p | p |] |]; simpl shr_m; intros H;
    [reflexivity | | | reflexivity | lia].
  - apply Z.div_unique with (r := 1); lia.
  - apply Z.div_unique with (r := 0); lia.
Qed.

Lemma pow2_xI (p : positive) : 2 ^ Z.pos p~1 = 2 * (2 ^ Z.pos p * 2 ^ Z.pos p).
Proof.
  replace (Z.pos p~1) with (1 + (Z.pos p + Z.pos p)) by lia.
  rewrite 2!Z.pow_add_r by lia. reflexivity.
Qed.

Lemma pow2_xO (p : positive) : 2 ^ Z.pos p~0 = 2 ^ Z.pos p * 2 ^ Z.pos p.
Proof.
  replace (Z.pos p~0) with (Z.pos p + Z.pos p) by lia.
  rewrite Z.pow_add_r by lia. reflexivity.
Qed.

Lemma iter_shr_1_m (p : positive) :
  forall mrs, 0 <= shr_m mrs ->
    shr_m (iter_pos shr_1 p mrs) = shr_m mrs / 2 ^ Z.pos p.
Proof.
  induction p as [p IH | p IH |]; intros mrs H; simpl iter_pos.
  - assert (H1 : 0 <= shr_m (shr_1 mrs)).
    { rewrite shr_1_m by exact H. apply Z.div_pos; lia. }
    assert (H2 : 0 <= shr_m (iter_pos shr_1 p (shr_1 mrs))).
    { rewrite IH by exact H1. apply Z.div_pos; lia. }
    rewrite IH by exact H2. rewrite IH by exact H1. rewrite shr_1_m by exact H.
    rewrite !Z.div_div by lia.
    rewrite pow2_xI. reflexivity.
  - assert (H2 : 0 <= shr_m (iter_pos shr_1 p mrs)).
    { rewrite IH by exact H. apply Z.div_pos; lia. }
    rewrite IH by exact H2. rewrite IH by exact H.
    rewrite !Z.div_div by lia.
    rewrite pow2_xO. reflexivity.
  - rewrite shr_1_m by exact H. reflexivity.
Qed.

(** [shr] on a non-negative mantissa: a division by a power of two. *)
Lemma shr_m_e (m e n : Z) (l : location) :
  0 <= m ->
  let '(mrs, e') := shr (shr_record_of_loc m l) e n in
  shr_m mrs = m / 2 ^ Z.max n 0 /\ e' = e + Z.max n 0.
Proof.
  intros Hm.
  assert (Hrec : shr_m (shr_record_of_loc m l) = m).
  { destruct l as [| []]; reflexivity. }
  destruct n as [| p | p]; simpl.
  - rewrite Hrec, Z.div_1_r. lia.
  - rewrite iter_shr_1_m by (rewrite Hrec; exact Hm).
    rewrite Hrec. split; [reflexivity | lia].
  - rewrite Hrec, Z.div_1_r. lia.
Qed.

Lemma round_nearest_even_bounds (m : Z) (l : location) :
  m <= round_nearest_even m l <= m + 1.
Proof.
  destruct l as [| []]; simpl; try lia.
  destruct (Z.even m); lia.
Qed.

(** The rounded product of a mantissa below [bound * 2 ^ - ex], truncated
    to an integer, is at most [bound]. *)
Lemma binary_round_aux_truncated (mx : positive) (ex bound : Z) :
  ex <= -99 ->
  Z.pos mx < 2 ^ 106 ->
  0 < bound <= 100 ->
  Z.pos mx < bound * 2 ^ (- ex) ->
  binary_round_aux prec emax false (Z.pos mx) ex loc_Exact = S754_zero false
  \/ exists m e,
       binary_round_aux prec emax false (Z.pos mx) ex loc_Exact
       = S754_finite false m e
       /\ 0 <= Z.shiftl (Z.pos m) e <= bound.
Proof.
  intros Hex Hmx Hbound Hval.
  unfold binary_round_aux, shr_fexp.
  set (n1 := fexp prec emax (Zdigits2 (Z.pos mx) + ex) - ex).
  pose proof (shr_m_e (Z.pos mx) ex n1 loc_Exact ltac:(lia)) as H1.
  destruct (shr (shr_record_of_loc (Z.pos mx) loc_Exact) ex n1)
    as [mrs1 e1].
  destruct H1 as [Hm1 He1].
  set (m1 := round_nearest_even (shr_m mrs1) (loc_of_shr_record mrs1)).
  pose proof (round_nearest_even_bounds (shr_m mrs1) (loc_of_shr_record mrs1))
    as Hround. fold m1 in Hround.
  assert (Hn1 : e1 <= -46).
  { pose proof (Zdigits2_le (Z.pos mx) 106 ltac:(lia) ltac:(lia)) as Hd.
    subst n1. unfold fexp, emin, prec, emax in *. lia. }
  assert (Hshift : 0 <= Z.max n1 0) by lia.
  assert (Hm1pos : 0 <= shr_m mrs1).
  { rewrite Hm1. apply Z.div_pos; lia. }
  assert (Hm1up : m1 <= bound * 2 ^ (- e1)).
  { assert (Hq : shr_m mrs1 < bound * 2 ^ (- e1)).
    { rewrite Hm1. apply Z.div_lt_upper_bound; [lia |].
      replace (2 ^ Z.max n1 0 * (bound * 2 ^ (- e1)))
        with (bound * (2 ^ Z.max n1 0 * 2 ^ (- e1))) by lia.
      rewrite <- Z.pow_add_r by lia.
      replace (Z.max n1 0 + - e1) with (- ex) by lia. exact Hval. }
    lia. }
  assert (Hm1nonneg : 0 <= m1) by lia.
  set (n2 := fexp prec emax (Zdigits2 m1 + e1) - e1).
  pose proof (shr_m_e m1 e1 n2 loc_Exact Hm1nonneg) as H2.
  destruct (shr (shr_record_of_loc m1 loc_Exact) e1 n2) as [mrs2 e2].
  destruct H2 as [Hm2 He2].
  assert (Hd1 : Zdigits2 m1 <= - e1 + 7).
  { apply Zdigits2_le; [| lia].
    split; [exact Hm1nonneg |].
    rewrite Z.pow_add_r by lia.
    assert (0 < 2 ^ (- e1)) by (apply Z.pow_pos_nonneg; lia).
    change (2 ^ 7) with 128. nia. }
  assert (He2up : e2 <= -46).
  { subst n2. unfold fexp, emin, prec, emax in *. lia. }
  assert (Hm2val : shr_m mrs2 / 2 ^ (- e2) <= bound
                   /\ 0 <= shr_m mrs2).
  { rewrite Hm2. split; [| apply Z.div_pos; lia].
    rewrite Z.div_div by (try apply Z.pow_pos_nonneg; lia).
    rewrite <- Z.pow_add_r by lia.
    replace (Z.max n2 0 + - e2) with (- e1) by lia.
    apply Z.div_le_upper_bound; [apply Z.pow_pos_nonneg; lia |]. lia. }
  destruct Hm2val as [Hval2 Hpos2].
  destruct (shr_m mrs2) as [| q | q] eqn:Hq; [left; reflexivity | | lia].
  right. exists q, e2.
  replace (e2 <=? emax - prec)%Z with true
    by (symmetry; apply Z.leb_le; unfold emax, prec; lia).
  split; [reflexivity |].
  rewrite Z.shiftl_div_pow2 by lia.
  split; [apply Z.div_pos; [lia | apply Z.pow_pos_nonneg; lia] | exact Hval2].
Qed.

Lemma Prim2SF_100 :
  Prim2SF 100 = S754_finite false 7036874417766400 (-46).
Proof. reflexivity. Qed.

Lemma Prim2SF_1 : Prim2SF 1 = S754_finite false 4503599627370496 (-52).
Proof. reflexivity. Qed.

Lemma Prim2SF_0 : Prim2SF 0 = S754_zero false.
Proof. reflexivity. Qed.

(** [int(opacity * 100)] exists and lies in 0..100 for every opacity of the
    data model, 0.0 to 1.0. *)
Lemma percent_of_unit_interval (o : float) :
  in_unit_interval o = true ->
  exists p, int_of_float (o * 100)%float = inr p /\ 0 <= p <= 100.
Proof.
  unfold in_unit_interval. intros H.
  apply andb_prop in H. destruct H as [H0 H1].
  rewrite leb_spec in H0, H1.
  rewrite Prim2SF_0 in H0. rewrite Prim2SF_1 in H1.
  pose proof (Prim2SF_valid o) as Hvalid.
  unfold int_of_float. rewrite mul_spec, Prim2SF_100.
  destruct (Prim2SF o) as [s | s | | s m e].
  - exists 0. destruct s; simpl; split; (reflexivity || lia).
  - destruct s; discriminate.
  - discriminate.
  - destruct s; [discriminate |].
    unfold SFleb, SFcompare in H1.
    unfold valid_binary, bounded, canonical_mantissa in Hvalid.
    apply andb_prop in Hvalid. destruct Hvalid as [Hcanon _].
    apply Z.eqb_eq in Hcanon.
    pose proof (digits2_pos_gt m) as Hgt.
    pose proof (digits2_pos_le m) as Hle.
    assert (Hd : Z.pos (digits2_pos m) <= 53).
    { unfold fexp, emin, prec, emax in Hcanon. lia. }
    assert (Hm : Z.pos m < 2 ^ 53).
    { eapply Z.lt_le_trans; [exact Hgt |].
      apply Z.pow_le_mono_r; lia. }
    destruct (Z.compare_spec e (-52)) as [He | He | He];
      [| | discriminate].
    + (* the exponent of 1.0: the opacity is 1.0 itself *)
      assert (Hd53 : Z.pos (digits2_pos m) = 53).
      { unfold fexp, emin, prec, emax in Hcanon. lia. }
      assert (Hm1 : (m <= 4503599627370496)%positive).
      { unfold Pos.le. rewrite Pos.compare_cont_spec in H1. simpl in H1.
        destruct (m ?= 4503599627370496)%positive; [| | discriminate];
          discriminate. }
      rewrite Hd53 in Hle.
      change (2 ^ 53) with (2 * 4503599627370496) in Hle.
      assert (m = 4503599627370496%positive).
      { apply Pos2Z.inj. apply Pos2Z.pos_le_pos in Hm1.
        apply Z.le_antisymm; [exact Hm1 |].
        apply Z.mul_le_mono_pos_l with (p := 2); [reflexivity | exact Hle]. }
      subst m e. exists 100. split; [vm_compute; reflexivity | lia].
    + unfold SF64mul.
      change (SFmul prec emax (S754_finite false m e)
                (S754_finite false 7036874417766400 (-46)))
        with (binary_round_aux prec emax false
                (Z.pos (m * 7036874417766400)) (e + -46) loc_Exact).
      destruct (binary_round_aux_truncated (m * 7036874417766400)
                  (e + -46) 100) as [Hz | (m' & e' & Hf & Hb)].
      * lia.
      * rewrite Pos2Z.inj_mul.
        change (2 ^ 106) with (2 ^ 53 * 2 ^ 53).
        apply Z.mul_lt_mono_nonneg; lia.
      * lia.
      * rewrite Pos2Z.inj_mul.
        replace (- (e + -46)) with (46 + - e) by lia.
        rewrite Z.pow_add_r by lia.
        change (Z.pos 7036874417766400) with (100 * 2 ^ 46).
        assert (Hpow : 2 ^ 53 <= 2 ^ (- e))
          by (apply Z.pow_le_mono_r; lia).
        assert (0 < 2 ^ 46) by reflexivity.
        nia.
      * rewrite Hz. exists 0. split; [reflexivity | lia].
      * rewrite Hf. exists (Z.shiftl (Z.pos m') e').
        split; [reflexivity | exact Hb].
Qed.

(** ** Running [update_controls] *)

Lemma bind_step {A B : Type} (m : M A) (k : A -> M B) (st : Panel) (a : A)
    (st1 : Panel) :
  m st = Ok a st1 -> bind m k st = k a st1.
Proof. intros H; unfold bind; rewrite H; reflexivity. Qed.

Lemma QDoubleSpinBox_setValue_blocked
    (norm : float -> float -> nat -> float -> float)
    (w : Widget) (v : float) (st : Panel) :
  signals_blocked st w = true ->
  QDoubleSpinBox_setValue norm w v st
  = Ok tt (with_spin_value
             (upd (spin_value st) w
                (norm (fst (spin_range w)) (snd (spin_range w)) (spin_decimals w) v))
             st).
Proof.
  intros Hb; unfold QDoubleSpinBox_setValue, bind, get, modify; simpl.
  rewrite Hb, orb_true_r; reflexivity.
Qed.

Lemma QCheckBox_setChecked_blocked (b : bool) (st : Panel) :
  signals_blocked st visible_checkbox = true ->
  QCheckBox_setChecked b st = Ok tt (with_checkbox_checked b st).
Proof.
  intros Hb; unfold QCheckBox_setChecked, bind, get, modify.
  destruct (Bool.eqb (checkbox_checked st) b) eqn:E.
  - apply eqb_prop in E; subst b; destruct st; reflexivity.
  - rewrite Hb; reflexivity.
Qed.

Lemma QSlider_setValue_blocked (v : Z) (st : Panel) :
  signals_blocked st opacity_slider = true ->
  - 2 ^ 31 <= v < 2 ^ 31 ->
  QSlider_setValue v st
  = Ok tt (with_slider_value (Z.max slider_minimum (Z.min slider_maximum v)) st).
Proof.
  intros Hb Hr; unfold QSlider_setValue.
  replace ((v <? - 2 ^ 31) || (2 ^ 31 <=? v))%Z with false
    by (symmetry; apply orb_false_iff; split;
        [apply Z.ltb_ge | apply Z.leb_gt]; lia).
  unfold bind, get, modify.
  destruct (Z.eqb (slider_value st) _) eqn:E.
  - apply Z.eqb_eq in E; rewrite <- E; destruct st; reflexivity.
  - rewrite Hb; reflexivity.
Qed.

Ltac panel_simpl :=
  cbn -[QDoubleSpinBox_setValue QCheckBox_setChecked QSlider_setValue
        update_transform_button_states int_of_float
        Z.pow Z.ltb Z.leb Z.max Z.min str_of_int String.append str_prefix
        String.eqb isEnabled].

Ltac step_blocked :=
  match goal with
  | |- context [bind (QDoubleSpinBox_setValue ?n ?w ?v) ?k ?st] =>
      rewrite (bind_step (QDoubleSpinBox_setValue n w v) k st tt _
                 (QDoubleSpinBox_setValue_blocked n w v st eq_refl))
  | |- context [bind (QCheckBox_setChecked ?b) ?k ?st] =>
      rewrite (bind_step (QCheckBox_setChecked b) k st tt _
                 (QCheckBox_setChecked_blocked b st eq_refl))
  | H : - 2 ^ 31 <= ?v < 2 ^ 31 |- context [bind (QSlider_setValue ?v) ?k ?st] =>
      rewrite (bind_step (QSlider_setValue v) k st tt _
                 (QSlider_setValue_blocked v st eq_refl H))
  end.

(** [update_controls] with a single fragment selected.  The position and
    angle spin boxes and the visibility check box are set from the fragment
    with their signals blocked, and nothing is emitted, even when the call
    raises on the opacity.  When the opacity percentage
    [int(opacity * 100)] exists and fits a C int, the call returns and the
    slider and its label show the percentage. *)
Lemma update_controls_single
    (norm : float -> float -> nat -> float -> float)
    (st : Panel) (r : ref) :
  current_fragment st = Some r ->
  is_group_selected st = false ->
  exists st',
    final (update_controls norm st) = st'
    /\ emitted st' = emitted st
    /\ heap st' = heap st
    /\ spin_value st' x_spinbox
       = norm (-999999)%float 999999%float 1%nat (Fragment.x (heap st r))
    /\ spin_value st' y_spinbox
       = norm (-999999)%float 999999%float 1%nat (Fragment.y (heap st r))
    /\ spin_value st' angle_spinbox
       = norm (-360)%float 360%float 1%nat (Fragment.rotation (heap st r))
    /\ checkbox_checked st' = Fragment.visible (heap st r)
    /\ (forall p,
          int_of_float (Fragment.opacity (heap st r) * 100)%float = inr p ->
          - 2 ^ 31 <= p < 2 ^ 31 ->
          update_controls norm st = Ok tt st'
          /\ slider_value st' = Z.max 0 (Z.min 100 p)
          /\ text st' opacity_label = str_of_int p ++ "%"
          /\ (forall w, In w [x_spinbox; y_spinbox; angle_spinbox;
                              visible_checkbox; opacity_slider] ->
                        signals_blocked st' w = false)).
Proof.
  intros Hc Hg.
  destruct st as [cf ids g fd sb tx ss sv cc sl h ev];
    simpl in Hc, Hg |- *; subst cf g.
  unfold update_controls; panel_simpl.
  repeat (step_blocked; panel_simpl).
  destruct (int_of_float (Fragment.opacity (h r) * 100)) as [e | p] eqn:Hp;
    panel_simpl.
  - (* int() raises *)
    eexists; split; [reflexivity |].
    do 6 (split; [reflexivity |]).
    intros p' Hp'; discriminate Hp'.
  - destruct ((p <? - 2 ^ 31) || (2 ^ 31 <=? p))%Z eqn:Hrange.
    + (* the percentage does not fit a C int *)
      unfold QSlider_setValue at 1; rewrite Hrange; panel_simpl.
      eexists; split; [reflexivity |].
      do 6 (split; [reflexivity |]).
      intros p' Hp' Hr'; injection Hp' as <-.
      apply orb_true_iff in Hrange; destruct Hrange as [Hlo | Hhi];
        [apply Z.ltb_lt in Hlo | apply Z.leb_le in Hhi]; lia.
    + assert (Hr : - 2 ^ 31 <= p < 2 ^ 31)
        by (apply orb_false_iff in Hrange; destruct Hrange as [Hlo Hhi];
            apply Z.ltb_ge in Hlo; apply Z.leb_gt in Hhi; lia).
      step_blocked; panel_simpl.
      rewrite Hp; panel_simpl.
      unfold update_transform_button_states; panel_simpl.
      destruct (Fragment.flip_horizontal (h r)); panel_simpl;
        destruct (Fragment.flip_vertical (h r)); panel_simpl;
        (eexists; split; [reflexivity |]);
        do 6 (split; [reflexivity |]);
        intros p' Hp' _; injection Hp' as <-;
        do 3 (split; [reflexivity |]);
        intros w Hw; simpl in Hw;
        repeat (destruct Hw as [<- | Hw]; [reflexivity |]); destruct Hw.
Qed.

(** [update_controls] with nothing selected. *)
Lemma update_controls_none
    (norm : float -> float -> nat -> float -> float) (st : Panel) :
  current_fragment st = None ->
  is_group_selected st = false ->
  exists st',
    update_controls norm st = Ok tt st'
    /\ current_fragment st' = None
    /\ text st' name_label = "No selection"
    /\ text st' size_label = "Size: -"
    /\ text st' file_label = "File: -"
    /\ emitted st' = emitted st
    /\ heap st' = heap st
    /\ spin_value st' = spin_value st
    /\ checkbox_checked st' = checkbox_checked st
    /\ slider_value st' = slider_value st
    /\ (forall w, w <> panel -> parentWidget w <> Some info_group ->
                  w <> info_group -> isEnabled st' w = false).
Proof.
  intros Hc Hg.
  destruct st as [cf ids g fd sb tx ss sv cc sl h ev];
    simpl in Hc, Hg |- *; subst cf g.
  unfold update_controls; panel_simpl.
  eexists; split; [reflexivity |].
  repeat (split; [reflexivity |]).
  intros w Hw Hi Hi'; destruct w; simpl in Hi;
    solve [ congruence
          | unfold isEnabled; simpl; unfold upd; simpl;
            rewrite ?andb_false_r; reflexivity ].
Qed.

(** [update_controls] with a group selected.  The arrow buttons are
    children of [position_group], which is disabled just before they are
    enabled. *)
Lemma update_controls_group
    (norm : float -> float -> nat -> float -> float) (st : Panel) :
  is_group_selected st = true ->
  exists st',
    update_controls norm st = Ok tt st'
    /\ current_fragment st' = current_fragment st
    /\ selected_fragment_ids st' = selected_fragment_ids st
    /\ is_group_selected st' = true
    /\ emitted st' = emitted st
    /\ heap st' = heap st
    /\ text st' name_label
       = "Group Selection ("
         ++ str_of_int (Z.of_nat (List.length (selected_fragment_ids st)))
         ++ " fragments)"
    /\ isEnabled st' position_group = false
    /\ (forall w, In w [up_btn; down_btn; left_btn; right_btn; center_btn] ->
                  force_disabled st' w = false /\ isEnabled st' w = false)
    /\ (forall w, In w [angle_spinbox; angle_45_btn; angle_neg45_btn;
                        flip_h_btn; flip_v_btn; x_spinbox; y_spinbox;
                        visible_checkbox; opacity_slider] ->
                  isEnabled st' w = false)
    /\ (forall w, In w [rotate_cw_btn; rotate_ccw_btn] ->
                  isEnabled st' w = negb (force_disabled st panel)).
Proof.
  intros Hg.
  destruct st as [cf ids g fd sb tx ss sv cc sl h ev];
    simpl in Hg |- *; subst g.
  unfold update_controls; panel_simpl.
  destruct cf; panel_simpl;
    (eexists; split; [reflexivity |]);
    repeat (split; [reflexivity |]);
    (split; [| split]); intros w Hw; simpl in Hw;
    repeat (destruct Hw as [<- | Hw];
            [first [ split; reflexivity
                   | unfold isEnabled; simpl; unfold upd; simpl;
                     rewrite ?andb_true_r; reflexivity ] |]);
    destruct Hw.
Qed.

(** ** Selection calls *)

(** C7: [set_selected_fragment], with a fragment or with [None], emits no
    signal: the event log after the call is the log before it (also if the
    call raises).  With a fragment, the position and angle spin boxes and
    the visibility check box are set from the fragment's fields as they are
    at the call, and so are the opacity slider and its label when the
    percentage [int(opacity * 100)] exists and fits a C int, as it does for
    every opacity in the data model's 0.0 to 1.0; the call then returns with
    the signals of the five controls unblocked again.  The spin boxes hold
    what Qt makes of the value, the slider the percentage bounded to
    0..100.  With [None] the call returns and leaves the control values
    alone. *)
Theorem selection_refresh_emits_nothing
    (norm : float -> float -> nat -> float -> float)
    (fragment : option ref) (st : Panel) :
  emitted (final (set_selected_fragment norm fragment st)) = emitted st
  /\ heap (final (set_selected_fragment norm fragment st)) = heap st
  /\ match fragment with
     | Some r =>
         let st' := final (set_selected_fragment norm (Some r) st) in
         spin_value st' x_spinbox
         = norm (-999999)%float 999999%float 1%nat (Fragment.x (heap st r))
         /\ spin_value st' y_spinbox
            = norm (-999999)%float 999999%float 1%nat (Fragment.y (heap st r))
         /\ spin_value st' angle_spinbox
            = norm (-360)%float 360%float 1%nat (Fragment.rotation (heap st r))
         /\ checkbox_checked st' = Fragment.visible (heap st r)
         /\ (forall p,
               int_of_float (Fragment.opacity (heap st r) * 100)%float = inr p ->
               - 2 ^ 31 <= p < 2 ^ 31 ->
               set_selected_fragment norm (Some r) st = Ok tt st'
               /\ slider_value st' = Z.max 0 (Z.min 100 p)
               /\ text st' opacity_label = str_of_int p ++ "%"
               /\ (forall w, In w [x_spinbox; y_spinbox; angle_spinbox;
                                   visible_checkbox; opacity_slider] ->
                             signals_blocked st' w = false))
     | None =>
         let st' := final (set_selected_fragment norm None st) in
         set_selected_fragment norm None st = Ok tt st'
         /\ spin_value st' = spin_value st
         /\ checkbox_checked st' = checkbox_checked st
         /\ slider_value st' = slider_value st
     end.
Proof.
  destruct fragment as [r |].
  - change (set_selected_fragment norm (Some r) st)
      with (update_controls norm (with_selection (Some r) [] false st)).
    destruct (update_controls_single norm (with_selection (Some r) [] false st) r
                eq_refl eq_refl)
      as (st' & -> & Hev & Hh & Hx & Hy & Ha & Hc & Hop).
    repeat split; try assumption; apply (Hop p); assumption.
  - change (set_selected_fragment norm None st)
      with (update_controls norm (with_selection None [] false st)).
    destruct (update_controls_none norm (with_selection None [] false st)
                eq_refl eq_refl)
      as (st' & Hrun & _ & _ & _ & _ & Hev & Hh & Hsv & Hcc & Hsl & _).
    rewrite Hrun; repeat split; assumption.
Qed.

Lemma selection_refresh_emits_nothing_witness :
  exists st',
    set_selected_fragment bound_only (Some 1%nat) panel_group = Ok tt st'
    /\ emitted st' = emitted panel_group
    /\ spin_value st' x_spinbox = 10%float
    /\ spin_value st' y_spinbox = 20%float
    /\ spin_value st' angle_spinbox = 90%float
    /\ checkbox_checked st' = true
    /\ slider_value st' = 75
    /\ text st' opacity_label = "75%".
Proof.
  destruct (selection_refresh_emits_nothing bound_only (Some 1%nat) panel_group)
    as (Hev & _ & Hx & Hy & Ha & Hc & Hop).
  destruct (Hop 75 eq_refl
              (conj (proj1 (Z.leb_le (- 2 ^ 31) 75) eq_refl)
                    (proj1 (Z.ltb_lt 75 (2 ^ 31)) eq_refl)))
    as (Hrun & Hs & Ht & _).
  eexists.
  exact (conj Hrun (conj Hev (conj Hx (conj Hy (conj Ha (conj Hc (conj Hs Ht))))))).
Defined.

(** C1, as the code has it: after [set_selected_fragments] with more than
    one id the panel is in group mode and [position_group] is disabled, so
    the five arrow buttons, although [setEnabled(True)] was called on each,
    are not enabled, and a click on one of them does nothing.  The angle
    spin box, the two 45-degree buttons, the flip buttons, the position spin
    boxes, the visibility check box and the opacity slider are not enabled
    either; the two 90-degree buttons are enabled whenever the panel itself
    is. *)
Theorem group_selection_leaves_arrow_buttons_disabled
    (norm : float -> float -> nat -> float -> float)
    (ids : list string) (frags : list ref) (st : Panel) :
  (1 < List.length ids)%nat ->
  exists st',
    set_selected_fragments norm ids frags st = Ok tt st'
    /\ is_group_selected st' = true
    /\ isEnabled st' position_group = false
    /\ (forall w, In w [up_btn; down_btn; left_btn; right_btn; center_btn] ->
                  force_disabled st' w = false
                  /\ isEnabled st' w = false
                  /\ perform norm (user_clicks w) st' = Ok tt st')
    /\ (forall w, In w [angle_spinbox; angle_45_btn; angle_neg45_btn;
                        flip_h_btn; flip_v_btn; x_spinbox; y_spinbox;
                        visible_checkbox; opacity_slider] ->
                  isEnabled st' w = false)
    /\ (forall w, In w [rotate_cw_btn; rotate_ccw_btn] ->
                  isEnabled st' w = negb (force_disabled st panel)).
Proof.
  intros Hlen.
  apply Nat.ltb_lt in Hlen.
  change (set_selected_fragments norm ids frags st)
    with (update_controls norm
            (with_selection (match frags with [] => None | f :: _ => Some f end)
               ids (1 <? List.length ids)%nat st)).
  rewrite Hlen.
  destruct (update_controls_group norm
              (with_selection (match frags with [] => None | f :: _ => Some f end)
                 ids true st) eq_refl)
    as (st' & Hrun & _ & _ & Hg & _ & _ & _ & Hpos & Harrows & Hoff & Hrot).
  exists st'.
  split; [exact Hrun |]; split; [exact Hg |]; split; [exact Hpos |].
  split; [| split; assumption].
  intros w Hw; destruct (Harrows w Hw) as [Hf Hd].
  split; [exact Hf |]; split; [exact Hd |].
  unfold perform, when_enabled, bind, get; rewrite Hd; reflexivity.
Qed.

Lemma group_selection_leaves_arrow_buttons_disabled_witness :
  map (isEnabled panel_group) [up_btn; down_btn; left_btn; right_btn; center_btn]
  = [false; false; false; false; false]
  /\ map (force_disabled panel_group)
       [up_btn; down_btn; left_btn; right_btn; center_btn]
     = [false; false; false; false; false]
  /\ exists st',
       set_selected_fragments bound_only ["a3f1c2d4e5b6"; "b7"] [1%nat; 2%nat]
         panel_fresh = Ok tt st'
       /\ isEnabled st' position_group = false.
Proof.
  refine (conj eq_refl (conj eq_refl _)).
  destruct (group_selection_leaves_arrow_buttons_disabled bound_only
              ["a3f1c2d4e5b6"; "b7"] [1%nat; 2%nat] panel_fresh
              (proj1 (Nat.ltb_lt 1 2) eq_refl))
    as (st' & Hrun & _ & Hpos & _).
  exists st'; exact (conj Hrun Hpos).
Defined.

(** With a single fragment selected the same buttons are enabled. *)
Example single_selection_enables_arrow_buttons :
  map (isEnabled panel_single) [up_btn; down_btn; left_btn; right_btn; center_btn]
  = [true; true; true; true; true].
Proof. reflexivity. Qed.

(** ** The selection fields *)

Lemma keeps_ret {A : Type} (a : A) : keeps_selection (ret a).
Proof. intros st; reflexivity. Qed.

Lemma keeps_raise {A : Type} (e : exn) : keeps_selection (@raise A e).
Proof. intros st; reflexivity. Qed.

Lemma keeps_get : keeps_selection get.
Proof. intros st; reflexivity. Qed.

Lemma keeps_lift {A : Type} (r : exn + A) : keeps_selection (lift r).
Proof. destruct r; intros st; reflexivity. Qed.

Lemma keeps_bind {A B : Type} (m : M A) (k : A -> M B) :
  keeps_selection m -> (forall a, keeps_selection (k a)) ->
  keeps_selection (bind m k).
Proof.
  intros Hm Hk st; unfold bind.
  specialize (Hm st).
  destruct (m st) as [a st1 | e st1]; simpl in *.
  - rewrite Hk; exact Hm.
  - exact Hm.
Qed.

Lemma keeps_for_each {A : Type} (l : list A) (body : A -> M unit) :
  (forall a, keeps_selection (body a)) -> keeps_selection (for_each l body).
Proof.
  intros Hb; induction l as [|a l IH]; simpl.
  - apply keeps_ret.
  - apply keeps_bind; [apply Hb | intros _; exact IH].
Qed.

Lemma keeps_setEnabled (w : Widget) (b : bool) : keeps_selection (setEnabled w b).
Proof. intros st; reflexivity. Qed.

Lemma keeps_blockSignals (w : Widget) (b : bool) :
  keeps_selection (blockSignals w b).
Proof. intros st; reflexivity. Qed.

Lemma keeps_setText (w : Widget) (s : string) : keeps_selection (setText w s).
Proof. intros st; reflexivity. Qed.

Lemma keeps_setStyleSheet (w : Widget) (s : string) :
  keeps_selection (setStyleSheet w s).
Proof. intros st; reflexivity. Qed.

Lemma keeps_emit (e : event) : keeps_selection (emit e).
Proof. intros st; reflexivity. Qed.

Lemma keeps_attr {A : Type} (r : ref) (field : Fragment.t -> A) :
  keeps_selection (attr r field).
Proof. intros st; reflexivity. Qed.

Create HintDb keeps.

#[local] Hint Resolve keeps_ret keeps_raise keeps_get keeps_lift keeps_setEnabled
  keeps_blockSignals keeps_setText keeps_setStyleSheet keeps_emit keeps_attr
  : keeps.

(** Walks a method body: binds, branches and loops, down to the primitives. *)
Ltac keeps_walk :=
  repeat first
    [ solve [auto with keeps]
    | apply keeps_bind; [| intros ?]
    | apply keeps_for_each; intros ?
    | match goal with
      | |- keeps_selection (if ?c then _ else _) => destruct c
      | |- keeps_selection (match ?x with _ => _ end) => destruct x
      | |- keeps_selection (modify _) => intros ?; reflexivity
      end ].

Lemma keeps_request_transform (k : string) (v : pyval) :
  keeps_selection (request_transform k v).
Proof. unfold request_transform; keeps_walk. Qed.

Lemma keeps_request_reset : keeps_selection request_reset.
Proof. unfold request_reset; keeps_walk. Qed.

#[local] Hint Resolve keeps_request_transform keeps_request_reset : keeps.

Lemma keeps_on_position_changed : keeps_selection on_position_changed.
Proof. unfold on_position_changed; keeps_walk. Qed.

Lemma keeps_on_visibility_changed (state : Z) :
  keeps_selection (on_visibility_changed state).
Proof. unfold on_visibility_changed; keeps_walk. Qed.

Lemma keeps_on_opacity_changed (value : Z) :
  keeps_selection (on_opacity_changed value).
Proof. unfold on_opacity_changed; keeps_walk. Qed.

Lemma keeps_on_angle_changed : keeps_selection on_angle_changed.
Proof. unfold on_angle_changed; keeps_walk. Qed.

#[local] Hint Resolve keeps_on_position_changed keeps_on_visibility_changed
  keeps_on_opacity_changed keeps_on_angle_changed : keeps.

Lemma keeps_clicked (button : Widget) : keeps_selection (clicked button).
Proof. destruct button; simpl; auto with keeps. Qed.

Lemma keeps_valueChanged (w : Widget) : keeps_selection (valueChanged w).
Proof. destruct w; simpl; auto with keeps. Qed.

Lemma keeps_QCheckBox_setChecked (b : bool) :
  keeps_selection (QCheckBox_setChecked b).
Proof. unfold QCheckBox_setChecked; keeps_walk. Qed.

Lemma keeps_QSlider_setValue (v : Z) : keeps_selection (QSlider_setValue v).
Proof. unfold QSlider_setValue; keeps_walk. Qed.

Lemma keeps_update_transform_button_states :
  keeps_selection update_transform_button_states.
Proof. unfold update_transform_button_states; keeps_walk. Qed.

#[local] Hint Resolve keeps_clicked keeps_valueChanged keeps_QCheckBox_setChecked
  keeps_QSlider_setValue keeps_update_transform_button_states : keeps.

Lemma keeps_QDoubleSpinBox_setValue
    (norm : float -> float -> nat -> float -> float) (w : Widget) (v : float) :
  keeps_selection (QDoubleSpinBox_setValue norm w v).
Proof. unfold QDoubleSpinBox_setValue; keeps_walk. Qed.

Lemma keeps_QAbstractSpinBox_interpret
    (norm : float -> float -> nat -> float -> float) (w : Widget) (v : float) :
  keeps_selection (QAbstractSpinBox_interpret norm w v).
Proof. unfold QAbstractSpinBox_interpret; keeps_walk. Qed.

#[local] Hint Resolve keeps_QDoubleSpinBox_setValue
  keeps_QAbstractSpinBox_interpret : keeps.

Lemma keeps_update_controls (norm : float -> float -> nat -> float -> float) :
  keeps_selection (update_controls norm).
Proof. unfold update_controls; keeps_walk. Qed.

#[local] Hint Resolve keeps_update_controls : keeps.

Lemma keeps_when_enabled (w : Widget) (m : M unit) :
  keeps_selection m -> keeps_selection (when_enabled w m).
Proof. intros Hm; unfold when_enabled; keeps_walk. Qed.

Lemma keeps_perform (norm : float -> float -> nat -> float -> float) (c : call) :
  is_selection_call c = false -> keeps_selection (perform norm c).
Proof.
  destruct c; simpl; intros Hc; try discriminate Hc;
    try match goal with |- keeps_selection (if ?b then _ else _) => destruct b end;
    try apply keeps_when_enabled; auto with keeps.
Qed.

Lemma selection_after_set_selected_fragment
    (norm : float -> float -> nat -> float -> float)
    (fragment : option ref) (st : Panel) :
  selection (final (set_selected_fragment norm fragment st))
  = (fragment, [], false).
Proof.
  change (set_selected_fragment norm fragment st)
    with (update_controls norm (with_selection fragment [] false st)).
  rewrite keeps_update_controls; reflexivity.
Qed.

Lemma selection_after_set_selected_fragments
    (norm : float -> float -> nat -> float -> float)
    (ids : list string) (frags : list ref) (st : Panel) :
  selection (final (set_selected_fragments norm ids frags st))
  = (match frags with [] => None | f :: _ => Some f end, ids,
     (1 <? List.length ids)%nat).
Proof.
  change (set_selected_fragments norm ids frags st)
    with (update_controls norm
            (with_selection (match frags with [] => None | f :: _ => Some f end)
               ids (1 <? List.length ids)%nat st)).
  rewrite keeps_update_controls; reflexivity.
Qed.

Lemma reachable_group_flag
    (norm : float -> float -> nat -> float -> float) (st : Panel) :
  reachable norm st ->
  is_group_selected st = (1 <? List.length (selected_fragment_ids st))%nat.
Proof.
  induction 1 as [h | c st Hr IH | h st Hr IH].
  - reflexivity.
  - destruct (is_selection_call c) eqn:Hc.
    + destruct c; try discriminate Hc; simpl.
      * pose proof (selection_after_set_selected_fragment norm fragment st) as Hk.
        unfold selection in Hk; injection Hk as _ -> ->; reflexivity.
      * pose proof (selection_after_set_selected_fragments norm fragment_ids
                      fragments st) as Hk.
        unfold selection in Hk; injection Hk as _ -> ->; reflexivity.
    + pose proof (keeps_perform norm c Hc st) as Hk.
      unfold selection in Hk; injection Hk as _ -> ->; exact IH.
  - destruct st; exact IH.
Qed.

(** C4: in every reachable state of the panel, group mode is on exactly
    when the list of selected ids has more than one element.
    [set_selected_fragment] empties the list and clears the flag,
    [set_selected_fragments] stores the ids and sets the flag to
    [len(ids) > 1], and every other call, slot or user action leaves both
    fields as they were, also when it raises. *)
Theorem group_mode_iff_more_than_one_id
    (norm : float -> float -> nat -> float -> float) (st : Panel) :
  reachable norm st ->
  (is_group_selected st = true
   <-> (1 < List.length (selected_fragment_ids st))%nat)
  /\ (forall fragment,
        selected_fragment_ids (final (set_selected_fragment norm fragment st)) = []
        /\ is_group_selected (final (set_selected_fragment norm fragment st))
           = false)
  /\ (forall ids frags,
        selected_fragment_ids (final (set_selected_fragments norm ids frags st))
        = ids
        /\ is_group_selected (final (set_selected_fragments norm ids frags st))
           = (1 <? List.length ids)%nat)
  /\ (forall c, is_selection_call c = false ->
        selected_fragment_ids (final (perform norm c st))
        = selected_fragment_ids st
        /\ is_group_selected (final (perform norm c st)) = is_group_selected st).
Proof.
  intros Hr; split; [| split; [| split]].
  - rewrite (reachable_group_flag norm st Hr); apply Nat.ltb_lt.
  - intros fragment.
    pose proof (selection_after_set_selected_fragment norm fragment st) as Hk.
    unfold selection in Hk; injection Hk as _ Hi Hg; split; assumption.
  - intros ids frags.
    pose proof (selection_after_set_selected_fragments norm ids frags st) as Hk.
    unfold selection in Hk; injection Hk as _ Hi Hg; split; assumption.
  - intros c Hc.
    pose proof (keeps_perform norm c Hc st) as Hk.
    unfold selection in Hk; injection Hk as _ Hi Hg; split; assumption.
Qed.

Lemma panel_group_reachable : reachable bound_only panel_group.
Proof.
  unfold panel_group, panel_fresh.
  apply reachable_call, reachable_init.
Qed.

Lemma group_mode_iff_more_than_one_id_witness :
  is_group_selected panel_group = true
  /\ selected_fragment_ids panel_group = ["a3f1c2d4e5b6"; "b7"].
Proof.
  refine (conj _ eq_refl).
  exact (proj2
           (proj1 (group_mode_iff_more_than_one_id bound_only panel_group
                     panel_group_reachable))
           (le_n 2)).
Defined.

(** * Further properties of the panel *)

(** ** Reset requests *)

(** X1: [request_reset] with a single fragment selected emits exactly one
    [reset_transform_requested], for that fragment; with a group selected it
    emits one per selected id, in the order of the list, whatever the
    current fragment is; it never raises. *)
Theorem request_reset_targets (st : Panel) :
  (is_group_selected st = true ->
   request_reset st
   = Ok tt (with_emitted
              (emitted st ++ map reset_transform_requested (selected_fragment_ids st))
              st))
  /\ (forall r, is_group_selected st = false -> current_fragment st = Some r ->
        request_reset st
        = Ok tt (with_emitted
                   (emitted st ++ [reset_transform_requested (Fragment.id (heap st r))])
                   st)).
Proof.
  split.
  - intros Hg; unfold request_reset, bind, get; rewrite Hg.
    apply (for_each_emit reset_transform_requested).
  - intros r Hg Hc; unfold request_reset, bind, get; rewrite Hg, Hc; reflexivity.
Qed.

Lemma request_reset_targets_witness :
  emitted (final (request_reset panel_group))
  = [reset_transform_requested "a3f1c2d4e5b6"; reset_transform_requested "b7"]
  /\ emitted (final (request_reset panel_single))
     = [reset_transform_requested "a3f1c2d4e5b6"].
Proof.
  split.
  - rewrite (proj1 (request_reset_targets panel_group) eq_refl); reflexivity.
  - rewrite (proj2 (request_reset_targets panel_single) 1%nat eq_refl eq_refl);
      reflexivity.
Defined.

(** ** Values that are not a pair *)

(** X2: with a group selected, [translate] with a value that does not
    unpack into two items raises before anything is emitted and leaves the
    state as it was: [TypeError] for a value that is not iterable,
    [ValueError] for a sequence of another length.  With a single fragment
    selected the value is not looked at and is forwarded as it is. *)
Theorem translate_value_is_unpacked_only_for_groups
    (st : Panel) (v : pyval) (e : exn) :
  unpack2 v = Some e ->
  (is_group_selected st = true ->
   request_transform "translate" v st = Raise e st)
  /\ (iter_length v = None -> e = TypeError)
  /\ (forall n, iter_length v = Some n -> e = ValueError /\ n <> 2%nat)
  /\ (forall r, is_group_selected st = false -> current_fragment st = Some r ->
        request_transform "translate" v st
        = Ok tt (with_emitted
                   (emitted st
                    ++ [transform_requested (Fragment.id (heap st r)) "translate" v])
                   st)).
Proof.
  intros Hv; split; [| split; [| split]].
  - intros Hg; unfold request_transform, bind, get; rewrite Hg; simpl.
    rewrite Hv; reflexivity.
  - intros Hn; unfold unpack2 in Hv; rewrite Hn in Hv; congruence.
  - intros n Hn; unfold unpack2 in Hv; rewrite Hn in Hv.
    destruct n as [|[|[|n]]]; split; congruence.
  - intros r Hg Hc; apply request_transform_single; assumption.
Qed.

Lemma translate_value_is_unpacked_only_for_groups_witness :
  request_transform "translate" VNone panel_group = Raise TypeError panel_group
  /\ request_transform "translate" (VTuple [VInt 1; VInt 2; VInt 3]) panel_group
     = Raise ValueError panel_group
  /\ request_transform "translate" (VStr "éèà") panel_group
     = Raise ValueError panel_group
  /\ emitted (final (request_transform "translate" VNone panel_single))
     = [transform_requested "a3f1c2d4e5b6" "translate" VNone].
Proof.
  refine (conj _ (conj _ (conj _ _))).
  - exact (proj1 (translate_value_is_unpacked_only_for_groups
                    panel_group VNone TypeError eq_refl) eq_refl).
  - exact (proj1 (translate_value_is_unpacked_only_for_groups
                    panel_group (VTuple [VInt 1; VInt 2; VInt 3]) ValueError eq_refl)
             eq_refl).
  - exact (proj1 (translate_value_is_unpacked_only_for_groups
                    panel_group (VStr "éèà") ValueError eq_refl) eq_refl).
  - rewrite (proj2 (proj2 (proj2 (translate_value_is_unpacked_only_for_groups
                                    panel_single VNone TypeError eq_refl)))
               1%nat eq_refl eq_refl).
    reflexivity.
Defined.

(** A str of two characters unpacks, whatever the number of its bytes, and
    is forwarded to every member of the group. *)
Example two_character_str_is_a_pair :
  emitted (final (request_transform "translate" (VStr "éé") panel_group))
  = [transform_requested "a3f1c2d4e5b6" "translate" (VStr "éé");
     transform_requested "b7" "translate" (VStr "éé")].
Proof. vm_compute; reflexivity. Qed.

(** ** Slots that do not go through [request_transform] *)

(** X3: [on_visibility_changed] looks at the current fragment only, not at
    the group flag: whenever a fragment is current, also as the first
    fragment of a group, it emits exactly one [set_visibility] event for
    that fragment, with [True] for the state [Checked] and [False] for every
    other state. *)
Theorem visibility_slot_ignores_group_mode (st : Panel) (r : ref) (state : Z) :
  current_fragment st = Some r ->
  on_visibility_changed state st
  = Ok tt (with_emitted
             (emitted st
              ++ [transform_requested (Fragment.id (heap st r)) "set_visibility"
                    (VBool (Z.eqb state Checked))])
             st).
Proof.
  intros Hc; unfold on_visibility_changed, bind, get, attr; rewrite Hc; reflexivity.
Qed.

Lemma visibility_slot_ignores_group_mode_witness :
  is_group_selected panel_group = true
  /\ emitted (final (on_visibility_changed 0 panel_group))
     = [transform_requested "a3f1c2d4e5b6" "set_visibility" (VBool false)]
  /\ emitted (final (on_visibility_changed 1 panel_single))
     = [transform_requested "a3f1c2d4e5b6" "set_visibility" (VBool false)].
Proof.
  refine (conj eq_refl (conj _ _)).
  - rewrite (visibility_slot_ignores_group_mode panel_group 1%nat 0 eq_refl);
      reflexivity.
  - rewrite (visibility_slot_ignores_group_mode panel_single 1%nat 1 eq_refl);
      reflexivity.
Defined.

(** X4: [on_angle_changed] with a single fragment selected emits exactly one
    [set_rotation] event carrying the value of the angle spin box, an
    absolute angle; with a group selected it emits nothing and changes
    nothing, because the request is dropped by [request_transform]. *)
Theorem angle_slot_sets_rotation_for_single_only (st : Panel) (r : ref) :
  current_fragment st = Some r ->
  (is_group_selected st = false ->
   on_angle_changed st
   = Ok tt (with_emitted
              (emitted st
               ++ [transform_requested (Fragment.id (heap st r)) "set_rotation"
                     (VFloat (spin_value st angle_spinbox))])
              st))
  /\ (is_group_selected st = true -> on_angle_changed st = Ok tt st).
Proof.
  intros Hc; split; intros Hg.
  - unfold on_angle_changed, bind, get; rewrite Hc.
    apply request_transform_single; assumption.
  - unfold on_angle_changed, bind, get; rewrite Hc.
    unfold request_transform, bind, get; rewrite Hg; reflexivity.
Qed.

Lemma angle_slot_sets_rotation_for_single_only_witness :
  emitted (final (on_angle_changed panel_single))
  = [transform_requested "a3f1c2d4e5b6" "set_rotation" (VFloat 90)]
  /\ on_angle_changed panel_group = Ok tt panel_group.
Proof.
  split.
  - rewrite (proj1 (angle_slot_sets_rotation_for_single_only panel_single 1%nat
                      eq_refl) eq_refl).
    reflexivity.
  - exact (proj2 (angle_slot_sets_rotation_for_single_only panel_group 1%nat
                    eq_refl) eq_refl).
Defined.

(** X5: [on_position_changed] with a group selected and a first fragment
    kept for display emits one [translate] event per selected id, each with
    the same delta, which is the spin box values minus the coordinates of
    that first fragment; with a group selected and no fragment kept it does
    nothing. *)
Theorem position_slot_in_group_mode (st : Panel) :
  is_group_selected st = true ->
  (forall r, current_fragment st = Some r ->
     on_position_changed st
     = Ok tt (with_emitted
                (emitted st
                 ++ map (fun i =>
                           transform_requested i "translate"
                             (VTuple
                                [VFloat (spin_value st x_spinbox
                                         - Fragment.x (heap st r))%float;
                                 VFloat (spin_value st y_spinbox
                                         - Fragment.y (heap st r))%float]))
                      (selected_fragment_ids st))
                st))
  /\ (current_fragment st = None -> on_position_changed st = Ok tt st).
Proof.
  intros Hg; split.
  - intros r Hc.
    unfold on_position_changed, bind at 1, get at 1; rewrite Hc.
    unfold bind, attr, get, ret.
    apply request_transform_group_translate; [assumption | reflexivity].
  - intros Hc; unfold on_position_changed, bind, get; rewrite Hc; reflexivity.
Qed.

Lemma position_slot_in_group_mode_witness :
  emitted (final (on_position_changed
                    (with_spin_value (upd (spin_value panel_group) x_spinbox 3%float)
                       panel_group)))
  = [transform_requested "a3f1c2d4e5b6" "translate" (VTuple [VFloat (-7); VFloat (-20)]);
     transform_requested "b7" "translate" (VTuple [VFloat (-7); VFloat (-20)])].
Proof.
  rewrite (proj1 (position_slot_in_group_mode
                    (with_spin_value (upd (spin_value panel_group) x_spinbox 3%float)
                       panel_group) eq_refl) 1%nat eq_refl).
  reflexivity.
Defined.

(** ** Properties kept by every call *)

Lemma preserves_ret {A : Type} (P : Panel -> Prop) (a : A) : preserves P (ret a).
Proof. intros st H; exact H. Qed.

Lemma preserves_raise {A : Type} (P : Panel -> Prop) (e : exn) :
  preserves P (@raise A e).
Proof. intros st H; exact H. Qed.

Lemma preserves_get (P : Panel -> Prop) : preserves P get.
Proof. intros st H; exact H. Qed.

Lemma preserves_lift {A : Type} (P : Panel -> Prop) (r : exn + A) :
  preserves P (lift r).
Proof. destruct r; intros st H; exact H. Qed.

Lemma preserves_attr {A : Type} (P : Panel -> Prop) (r : ref)
    (field : Fragment.t -> A) :
  preserves P (attr r field).
Proof. intros st H; exact H. Qed.

Lemma preserves_bind {A B : Type} (P : Panel -> Prop) (m : M A) (k : A -> M B) :
  preserves P m -> (forall a, preserves P (k a)) -> preserves P (bind m k).
Proof.
  intros Hm Hk st H; unfold bind.
  specialize (Hm st H).
  destruct (m st) as [a st1 | e st1]; simpl in *.
  - apply Hk; exact Hm.
  - exact Hm.
Qed.

Lemma preserves_for_each {A : Type} (P : Panel -> Prop) (l : list A)
    (body : A -> M unit) :
  (forall a, preserves P (body a)) -> preserves P (for_each l body).
Proof.
  intros Hb; induction l as [|a l IH]; simpl.
  - apply preserves_ret.
  - apply preserves_bind; [apply Hb | intros _; exact IH].
Qed.

(** Walks a method body down to its assignments, which [leaf] settles. *)
Ltac preserves_walk leaf :=
  repeat
    match goal with
    | |- preserves _ (ret _) => apply preserves_ret
    | |- preserves _ (raise _) => apply preserves_raise
    | |- preserves _ get => apply preserves_get
    | |- preserves _ (lift _) => apply preserves_lift
    | |- preserves _ (attr _ _) => apply preserves_attr
    | |- preserves _ (bind _ _) => apply preserves_bind; [| intros ?]
    | |- preserves _ (for_each _ _) => apply preserves_for_each; intros ?
    | |- preserves _ (if ?c then _ else _) => destruct c
    | |- preserves _ (match ?x with _ => _ end) => destruct x
    | |- preserves _ (let _ := _ in _) => cbv zeta
    | |- preserves _ (modify _) => progress leaf
    end.

Ltac unfold_methods :=
  unfold perform, when_enabled, set_selected_fragment, set_selected_fragments,
    update_controls, update_transform_button_states,
    QDoubleSpinBox_setValue, QAbstractSpinBox_interpret, QCheckBox_setChecked,
    QSlider_setValue, valueChanged, on_position_changed, on_visibility_changed,
    on_opacity_changed, on_angle_changed, request_transform, request_reset,
    setEnabled, blockSignals, setText, setStyleSheet, emit.

Ltac unfold_clicked :=
  match goal with
  | |- context [clicked ?b] => destruct b; unfold clicked
  end.

(** *** What stays true of the widgets *)

Lemma never_forced_spec (st : Panel) :
  never_forced st = true <->
  (forall w, In w never_disabled_widgets -> force_disabled st w = false).
Proof.
  unfold never_forced; rewrite forallb_forall; split; intros H w Hw.
  - apply negb_true_iff, H, Hw.
  - apply negb_true_iff, H, Hw.
Qed.

Ltac widgets_leaf :=
  idtac;
  match goal with
  | |- preserves _ (modify _) =>
      let Hf := fresh "Hf" in
      let Hs := fresh "Hs" in
      intros ? [Hf Hs]; split;
      [ first
          [ exact Hf
          | unfold never_forced in *; simpl in *; unfold upd in *; simpl in *;
            repeat match goal with
                   | H : _ && _ = true |- _ =>
                       apply andb_prop in H; destruct H
                   end;
            repeat (apply andb_true_intro; split);
            solve [assumption | reflexivity] ]
      | unfold slider_in_range, slider_minimum, slider_maximum in *; simpl; lia ]
  end.

Lemma widgets_invariant_kept
    (norm : float -> float -> nat -> float -> float) (c : call) :
  preserves (fun s => never_forced s = true /\ slider_in_range s) (perform norm c).
Proof.
  destruct c; unfold_methods; try unfold_clicked; unfold_methods;
    preserves_walk widgets_leaf.
Qed.

Lemma reachable_never_forced
    (norm : float -> float -> nat -> float -> float) (st : Panel) :
  reachable norm st ->
  (forall w, In w never_disabled_widgets -> force_disabled st w = false)
  /\ slider_in_range st.
Proof.
  intros Hr.
  assert (H : never_forced st = true /\ slider_in_range st).
  { induction Hr as [h | c st Hr IH | h st Hr IH].
    - split; [reflexivity | unfold slider_in_range; simpl; split; discriminate].
    - apply (widgets_invariant_kept norm c st IH).
    - destruct st; exact IH. }
  destruct H as [Hf Hs]; split; [apply never_forced_spec, Hf | exact Hs].
Qed.

(** X7: in every reachable state the opacity slider holds a value from 0 to
    100, and none of the panel itself, the information box and its labels,
    the reset button, the five arrow buttons and the opacity label has been
    explicitly disabled: the panel only ever disables the three control
    boxes and the controls it re-enables for a single fragment. *)
Theorem reachable_widgets_invariant
    (norm : float -> float -> nat -> float -> float) (st : Panel) :
  reachable norm st ->
  0 <= slider_value st <= 100
  /\ (forall w, In w never_disabled_widgets -> force_disabled st w = false).
Proof.
  intros Hr.
  destruct (reachable_never_forced norm st Hr) as [Hf Hs].
  unfold slider_in_range, slider_minimum, slider_maximum in Hs.
  split; [exact Hs | exact Hf].
Qed.

Lemma reachable_widgets_invariant_witness :
  0 <= slider_value panel_group <= 100
  /\ force_disabled panel_group reset_btn = false.
Proof.
  destruct (reachable_widgets_invariant bound_only panel_group panel_group_reachable)
    as [Hs Hf].
  refine (conj Hs (Hf reset_btn _)).
  simpl; tauto.
Defined.

(** *** What the panel writes into the fragments *)

Lemma update_controls_heap
    (norm : float -> float -> nat -> float -> float) (st : Panel) :
  heap (final (update_controls norm st)) = heap st.
Proof.
  destruct (is_group_selected st) eqn:Hg.
  - destruct (update_controls_group norm st Hg) as (st' & -> & _ & _ & _ & _ & Hh & _).
    exact Hh.
  - destruct (current_fragment st) as [r |] eqn:Hc.
    + destruct (update_controls_single norm st r Hc Hg) as (st' & -> & _ & Hh & _).
      exact Hh.
    + destruct (update_controls_none norm st Hc Hg)
        as (st' & -> & _ & _ & _ & _ & _ & Hh & _).
      exact Hh.
Qed.

Ltac heap_leaf :=
  idtac;
  match goal with
  | |- preserves _ (modify _) =>
      let H := fresh "H" in intros ? H; exact H
  end.

Lemma on_opacity_changed_heap (v : Z) (st : Panel) (r' : ref) :
  heap (final (on_opacity_changed v st)) r' = heap st r'
  \/ (current_fragment st = Some r'
      /\ exists o, heap (final (on_opacity_changed v st)) r'
                   = Fragment.set_opacity o (heap st r')).
Proof.
  unfold on_opacity_changed, bind, get.
  destruct (current_fragment st) as [r |] eqn:Hc; [| left; reflexivity].
  destruct (float_of_int v) as [e | fv]; simpl; [left; reflexivity |].
  unfold store_update.
  destruct (Nat.eqb r' r) eqn:Hr; [| left; reflexivity].
  apply Nat.eqb_eq in Hr; subst r'.
  right; split; [reflexivity | eexists; reflexivity].
Qed.

Lemma user_moves_slider_cases
    (norm : float -> float -> nat -> float -> float) (v : Z) (st : Panel) :
  heap (final (perform norm (user_moves_slider v) st)) = heap st
  \/ exists v',
       final (perform norm (user_moves_slider v) st)
       = final (on_opacity_changed v' (with_slider_value v' st)).
Proof.
  unfold perform, when_enabled, QSlider_setValue, bind, get, modify.
  destruct (isEnabled st opacity_slider); [| left; reflexivity].
  destruct ((v <? - 2 ^ 31) || (2 ^ 31 <=? v))%Z; [left; reflexivity |].
  destruct (slider_value st =? _)%Z; [left; reflexivity |].
  destruct (signals_blocked st opacity_slider); [left; destruct st; reflexivity |].
  right; exists (Z.max slider_minimum (Z.min slider_maximum v)).
  destruct (on_opacity_changed _ _); reflexivity.
Qed.

(** X8: the only thing the panel ever writes into a fragment is the opacity
    of the current fragment.  Every call other than the opacity slot and a
    move of the opacity slider leaves all fragments exactly as they were,
    also the two selection calls, during which the slider is set with its
    signals blocked; and those two leave every fragment as it was except
    that the opacity of the current one may have changed. *)
Theorem only_opacity_of_current_fragment_is_written
    (norm : float -> float -> nat -> float -> float) (c : call) (st : Panel) :
  (is_opacity_call c = false -> heap (final (perform norm c st)) = heap st)
  /\ (forall r',
        heap (final (perform norm c st)) r' = heap st r'
        \/ (current_fragment st = Some r'
            /\ exists o, heap (final (perform norm c st)) r'
                         = Fragment.set_opacity o (heap st r'))).
Proof.
  assert (Hmost : is_opacity_call c = false ->
                  heap (final (perform norm c st)) = heap st).
  { intros Hc.
    destruct c; try discriminate Hc; simpl.
    - change (set_selected_fragment norm fragment st)
        with (update_controls norm (with_selection fragment [] false st)).
      rewrite update_controls_heap; reflexivity.
    - change (set_selected_fragments norm fragment_ids fragments st)
        with (update_controls norm
                (with_selection
                   (match fragments with [] => None | f :: _ => Some f end)
                   fragment_ids (1 <? List.length fragment_ids)%nat st)).
      rewrite update_controls_heap; reflexivity.
    - apply update_controls_heap.
    - assert (H : preserves (fun s => heap s = heap st)
                    update_transform_button_states)
        by (unfold_methods; preserves_walk heap_leaf).
      apply H; reflexivity.
    - assert (H : preserves (fun s => heap s = heap st)
                    (request_transform transform_type value))
        by (unfold_methods; preserves_walk heap_leaf).
      apply H; reflexivity.
    - assert (H : preserves (fun s => heap s = heap st) request_reset)
        by (unfold_methods; preserves_walk heap_leaf).
      apply H; reflexivity.
    - assert (H : preserves (fun s => heap s = heap st) on_position_changed)
        by (unfold_methods; preserves_walk heap_leaf).
      apply H; reflexivity.
    - assert (H : preserves (fun s => heap s = heap st)
                    (on_visibility_changed state))
        by (unfold_methods; preserves_walk heap_leaf).
      apply H; reflexivity.
    - assert (H : preserves (fun s => heap s = heap st) on_angle_changed)
        by (unfold_methods; preserves_walk heap_leaf).
      apply H; reflexivity.
    - assert (H : preserves (fun s => heap s = heap st)
                    (when_enabled button (clicked button)))
        by (destruct button; unfold clicked; unfold_methods;
            preserves_walk heap_leaf).
      apply H; reflexivity.
    - assert (H : preserves (fun s => heap s = heap st)
                    (if is_spinbox w
                     then when_enabled w (QDoubleSpinBox_setValue norm w value)
                     else ret tt))
        by (unfold_methods; preserves_walk heap_leaf).
      apply H; reflexivity.
    - assert (H : preserves (fun s => heap s = heap st)
                    (if is_spinbox w
                     then when_enabled w (QAbstractSpinBox_interpret norm w value)
                     else ret tt))
        by (unfold_methods; preserves_walk heap_leaf).
      apply H; reflexivity.
    - assert (H : preserves (fun s => heap s = heap st)
                    (when_enabled visible_checkbox (QCheckBox_setChecked b)))
        by (unfold_methods; preserves_walk heap_leaf).
      apply H; reflexivity. }
  split; [exact Hmost |].
  intros r'.
  destruct (is_opacity_call c) eqn:Hc;
    [| left; rewrite (Hmost eq_refl); reflexivity].
  destruct c; try discriminate Hc.
  - apply on_opacity_changed_heap.
  - destruct (user_moves_slider_cases norm value st) as [Hsame | [v' Hslot]].
    + left; rewrite Hsame; reflexivity.
    + rewrite Hslot.
      apply (on_opacity_changed_heap v' (with_slider_value v' st) r').
Qed.

Lemma only_opacity_of_current_fragment_is_written_witness :
  heap (final (perform bound_only (user_clicks up_btn) panel_single))
  = heap panel_single
  /\ heap (final (perform bound_only (call_set_selected_fragment (Some 2%nat))
                    panel_single))
     = heap panel_single.
Proof.
  split.
  - exact (proj1 (only_opacity_of_current_fragment_is_written bound_only
                    (user_clicks up_btn) panel_single) eq_refl).
  - exact (proj1 (only_opacity_of_current_fragment_is_written bound_only
                    (call_set_selected_fragment (Some 2%nat)) panel_single) eq_refl).
Defined.

(** ** What [update_controls] leaves on the widgets *)

(** Runs [update_controls] for a single fragment [r] of the store [h] down
    to its outcomes: [int()] raised, the percentage did not fit a C int, or
    the call returned (with the four flip combinations). *)
Ltac single_outcomes h r :=
  unfold update_controls; panel_simpl;
  repeat (step_blocked; panel_simpl);
  let e := fresh "e" in
  let p := fresh "p" in
  let Hp := fresh "Hp" in
  let Hrange := fresh "Hrange" in
  let Hr := fresh "Hr" in
  destruct (int_of_float (Fragment.opacity (h r) * 100)) as [e | p] eqn:Hp;
  panel_simpl;
  [ | destruct ((p <? - 2 ^ 31) || (2 ^ 31 <=? p))%Z eqn:Hrange;
      [ unfold QSlider_setValue; rewrite Hrange; panel_simpl
      | assert (Hr : - 2 ^ 31 <= p < 2 ^ 31)
          by (apply orb_false_iff in Hrange; destruct Hrange as [Hlo Hhi];
              apply Z.ltb_ge in Hlo; apply Z.leb_gt in Hhi; lia);
        step_blocked; panel_simpl;
        rewrite Hp; panel_simpl;
        unfold update_transform_button_states; panel_simpl;
        destruct (Fragment.flip_horizontal (h r)) eqn:?; panel_simpl;
        destruct (Fragment.flip_vertical (h r)) eqn:?; panel_simpl ] ].

(** The enabled flags after [update_controls] for a single fragment: the
    three control boxes and the eleven controls named in the branch are
    explicitly enabled, every other flag is as it was.  The flags are set
    before anything can raise. *)
Lemma update_controls_single_flags
    (norm : float -> float -> nat -> float -> float) (st : Panel) (r : ref) :
  current_fragment st = Some r ->
  is_group_selected st = false ->
  forall w,
    force_disabled (final (update_controls norm st)) w
    = match w with
      | transform_group | position_group | display_group
      | angle_spinbox | angle_45_btn | angle_neg45_btn
      | rotate_cw_btn | rotate_ccw_btn | flip_h_btn | flip_v_btn
      | x_spinbox | y_spinbox | visible_checkbox | opacity_slider => false
      | _ => force_disabled st w
      end.
Proof.
  intros Hc Hg.
  destruct st as [cf ids g fd sb tx ss sv cc sl h ev];
    simpl in Hc, Hg |- *; subst cf g.
  single_outcomes h r; intros w; destruct w; reflexivity.
Qed.

(** The state [update_controls] leaves with a group selected: the enabled
    flags of the group row, and every value control, style sheet and blocked
    flag as it was. *)
Lemma update_controls_group_state
    (norm : float -> float -> nat -> float -> float) (st : Panel) :
  is_group_selected st = true ->
  exists st',
    update_controls norm st = Ok tt st'
    /\ selection st' = selection st
    /\ emitted st' = emitted st
    /\ spin_value st' = spin_value st
    /\ checkbox_checked st' = checkbox_checked st
    /\ slider_value st' = slider_value st
    /\ style_sheet st' = style_sheet st
    /\ signals_blocked st' = signals_blocked st
    /\ text st' opacity_label = text st opacity_label
    /\ text st' size_label = "Size: Multiple"
    /\ text st' file_label = "File: Multiple"
    /\ (forall w,
          force_disabled st' w
          = match w with
            | transform_group | display_group
            | rotate_cw_btn | rotate_ccw_btn
            | up_btn | down_btn | left_btn | right_btn | center_btn => false
            | position_group
            | angle_spinbox | angle_45_btn | angle_neg45_btn
            | x_spinbox | y_spinbox | flip_h_btn | flip_v_btn
            | visible_checkbox | opacity_slider => true
            | _ => force_disabled st w
            end).
Proof.
  intros Hg.
  destruct st as [cf ids g fd sb tx ss sv cc sl h ev];
    simpl in Hg |- *; subst g.
  unfold update_controls; panel_simpl.
  destruct cf; panel_simpl;
    (eexists; split; [reflexivity |]);
    do 10 (split; [reflexivity |]);
    intros w; destruct w; reflexivity.
Qed.


Ltac never_forced_facts_of Hnf :=
  pose proof (Hnf panel ltac:(simpl; tauto));
  pose proof (Hnf info_group ltac:(simpl; tauto));
  pose proof (Hnf name_label ltac:(simpl; tauto));
  pose proof (Hnf size_label ltac:(simpl; tauto));
  pose proof (Hnf file_label ltac:(simpl; tauto));
  pose proof (Hnf reset_btn ltac:(simpl; tauto));
  pose proof (Hnf up_btn ltac:(simpl; tauto));
  pose proof (Hnf down_btn ltac:(simpl; tauto));
  pose proof (Hnf left_btn ltac:(simpl; tauto));
  pose proof (Hnf right_btn ltac:(simpl; tauto));
  pose proof (Hnf center_btn ltac:(simpl; tauto));
  pose proof (Hnf opacity_label ltac:(simpl; tauto)).

Ltac rewrite_flags :=
  repeat match goal with
         | H : force_disabled _ _ = false |- _ => rewrite ?H; clear H
         end.

(** ** The enablement of the controls, mode by mode *)

(** X9: in a reachable state, [set_selected_fragment] with a fragment
    leaves every widget of the panel enabled: the rotate, angle, flip,
    position, arrow, visibility, opacity and reset controls alike.  This
    holds whether the call returns or raises on the opacity, since the
    flags are set first. *)
Theorem single_selection_enables_every_control
    (norm : float -> float -> nat -> float -> float) (st : Panel) (r : ref) :
  reachable norm st ->
  forall w, isEnabled (final (set_selected_fragment norm (Some r) st)) w = true.
Proof.
  intros Hr w.
  destruct (reachable_never_forced norm st Hr) as [Hnf _].
  change (set_selected_fragment norm (Some r) st)
    with (update_controls norm (with_selection (Some r) [] false st)).
  pose proof (update_controls_single_flags norm
                (with_selection (Some r) [] false st) r eq_refl eq_refl) as F.
  never_forced_facts_of Hnf.
  destruct w; unfold isEnabled; simpl; rewrite !F; simpl;
    rewrite_flags; reflexivity.
Qed.

Lemma single_selection_enables_every_control_witness :
  isEnabled (final (set_selected_fragment bound_only (Some 2%nat) panel_group))
    up_btn = true
  /\ isEnabled (final (set_selected_fragment bound_only (Some 2%nat) panel_group))
       opacity_slider = true.
Proof.
  split;
    apply (single_selection_enables_every_control bound_only panel_group 2%nat
             panel_group_reachable).
Defined.

Lemma user_input_on_disabled_controls (norm : float -> float -> nat -> float -> float)
    (st : Panel) (c : call) :
  (forall w, w <> panel -> parentWidget w <> Some info_group ->
             w <> info_group -> isEnabled st w = false) ->
  is_user_input c = true ->
  perform norm c st = Ok tt st.
Proof.
  intros Hoff Hu.
  destruct c; try discriminate Hu; simpl.
  - unfold when_enabled, bind, get.
    destruct (isEnabled st button) eqn:He; [| reflexivity].
    destruct button; try reflexivity;
      rewrite Hoff in He by (simpl; congruence); discriminate He.
  - destruct (is_spinbox w) eqn:Hw; [| reflexivity].
    unfold when_enabled, bind, get.
    rewrite Hoff; [reflexivity | | |]; destruct w; simpl in *; congruence.
  - destruct (is_spinbox w) eqn:Hw; [| reflexivity].
    unfold when_enabled, bind, get.
    rewrite Hoff; [reflexivity | | |]; destruct w; simpl in *; congruence.
  - unfold when_enabled, bind, get.
    rewrite Hoff; [reflexivity | | |]; simpl; congruence.
  - unfold when_enabled, bind, get.
    rewrite Hoff; [reflexivity | | |]; simpl; congruence.
Qed.

(** X10: after the selection is cleared, and likewise on a freshly
    constructed panel, every control is disabled and nothing a user does to
    the panel has any effect: clicks, spin box edits, toggling the check box
    and moving the slider all leave the state, and so the event log and the
    fragments, exactly as they were. *)
Theorem no_selection_makes_user_input_inert
    (norm : float -> float -> nat -> float -> float) (st : Panel) (c : call) :
  is_user_input c = true ->
  (exists st',
     set_selected_fragment norm None st = Ok tt st'
     /\ (forall w, w <> panel -> parentWidget w <> Some info_group ->
                   w <> info_group -> isEnabled st' w = false)
     /\ perform norm c st' = Ok tt st')
  /\ (forall h, perform norm c (init norm h) = Ok tt (init norm h)).
Proof.
  intros Hu; split.
  - change (set_selected_fragment norm None st)
      with (update_controls norm (with_selection None [] false st)).
    destruct (update_controls_none norm (with_selection None [] false st)
                eq_refl eq_refl)
      as (st' & Hrun & _ & _ & _ & _ & _ & _ & _ & _ & _ & Hoff).
    exists st'; split; [exact Hrun |]; split; [exact Hoff |].
    apply user_input_on_disabled_controls; assumption.
  - intros h.
    unfold init.
    destruct (update_controls_none norm (setup_ui h) eq_refl eq_refl)
      as (st' & Hrun & _ & _ & _ & _ & _ & _ & _ & _ & _ & Hoff).
    rewrite Hrun; simpl.
    apply user_input_on_disabled_controls; assumption.
Qed.

Lemma no_selection_makes_user_input_inert_witness :
  perform bound_only (user_clicks up_btn) panel_fresh = Ok tt panel_fresh.
Proof.
  exact (proj2 (no_selection_makes_user_input_inert bound_only panel_fresh
                  (user_clicks up_btn) eq_refl) sample_heap).
Defined.

(** X11: in a reachable state, after [set_selected_fragments] with more
    than one id, exactly three controls answer a user: a click on either
    90-degree button emits the one event addressed to ["group"] with the id
    list, and a click on the reset button emits one
    [reset_transform_requested] per id; every other click, every spin box
    edit, toggling the check box and moving the slider do nothing. *)
Theorem group_selection_answers_rotate_and_reset_only
    (norm : float -> float -> nat -> float -> float)
    (ids : list string) (frags : list ref) (st : Panel) :
  reachable norm st ->
  (1 < List.length ids)%nat ->
  exists st',
    set_selected_fragments norm ids frags st = Ok tt st'
    /\ emitted st' = emitted st
    /\ perform norm (user_clicks rotate_cw_btn) st'
       = Ok tt (with_emitted
                  (emitted st'
                   ++ [transform_requested "group" "rotate_cw" (VStrList ids)])
                  st')
    /\ perform norm (user_clicks rotate_ccw_btn) st'
       = Ok tt (with_emitted
                  (emitted st'
                   ++ [transform_requested "group" "rotate_ccw" (VStrList ids)])
                  st')
    /\ perform norm (user_clicks reset_btn) st'
       = Ok tt (with_emitted
                  (emitted st' ++ map reset_transform_requested ids) st')
    /\ (forall c,
          is_user_input c = true ->
          c <> user_clicks rotate_cw_btn ->
          c <> user_clicks rotate_ccw_btn ->
          c <> user_clicks reset_btn ->
          perform norm c st' = Ok tt st').
Proof.
  intros Hr Hlen.
  apply Nat.ltb_lt in Hlen.
  destruct (reachable_never_forced norm st Hr) as [Hnf _].
  change (set_selected_fragments norm ids frags st)
    with (update_controls norm
            (with_selection (match frags with [] => None | f :: _ => Some f end)
               ids (1 <? List.length ids)%nat st)).
  rewrite Hlen.
  destruct (update_controls_group_state norm
              (with_selection (match frags with [] => None | f :: _ => Some f end)
                 ids true st) eq_refl)
    as (st' & Hrun & Hsel & Hev & _ & _ & _ & _ & _ & _ & _ & _ & F).
  unfold selection in Hsel; simpl in Hsel; injection Hsel as _ Hids Hg.
  never_forced_facts_of Hnf.
  assert (Hon : forall w, In w [rotate_cw_btn; rotate_ccw_btn; reset_btn] ->
                          isEnabled st' w = true).
  { intros w Hw; simpl in Hw.
    destruct Hw as [<- | [<- | [<- | []]]];
      unfold isEnabled; simpl; rewrite !F; simpl; rewrite_flags; reflexivity. }
  exists st'; split; [exact Hrun |]; split; [exact Hev |].
  split; [| split; [| split]].
  - unfold perform, when_enabled, bind, get.
    rewrite (Hon rotate_cw_btn) by (simpl; tauto); simpl.
    rewrite (request_transform_group_rotate st' "rotate_cw" VNone Hg
               (or_introl eq_refl)), Hids.
    reflexivity.
  - unfold perform, when_enabled, bind, get.
    rewrite (Hon rotate_ccw_btn) by (simpl; tauto); simpl.
    rewrite (request_transform_group_rotate st' "rotate_ccw" VNone Hg
               (or_intror eq_refl)), Hids.
    reflexivity.
  - unfold perform, when_enabled, bind, get.
    rewrite (Hon reset_btn) by (simpl; tauto); simpl.
    unfold request_reset, bind, get; rewrite Hg, Hids.
    apply (for_each_emit reset_transform_requested).
  - clear Hon; intros c Hu Hcw Hccw Hreset.
    destruct c; try discriminate Hu; simpl.
    + unfold when_enabled, bind, get.
      destruct button; try congruence;
        try (destruct (isEnabled st' _); reflexivity);
        unfold isEnabled; simpl; rewrite !F; simpl; reflexivity.
    + destruct (is_spinbox w) eqn:Hw; [| reflexivity].
      unfold when_enabled, bind, get.
      destruct w; try discriminate Hw;
        unfold isEnabled; simpl; rewrite !F; simpl; reflexivity.
    + destruct (is_spinbox w) eqn:Hw; [| reflexivity].
      unfold when_enabled, bind, get.
      destruct w; try discriminate Hw;
        unfold isEnabled; simpl; rewrite !F; simpl; reflexivity.
    + unfold when_enabled, bind, get.
      unfold isEnabled; simpl; rewrite !F; simpl; reflexivity.
    + unfold when_enabled, bind, get.
      unfold isEnabled; simpl; rewrite !F; simpl; reflexivity.
Qed.

Lemma group_selection_answers_rotate_and_reset_only_witness :
  exists st',
    set_selected_fragments bound_only ["a3f1c2d4e5b6"; "b7"] [1%nat; 2%nat]
      panel_single = Ok tt st'
    /\ emitted (final (perform bound_only (user_clicks reset_btn) st'))
       = [reset_transform_requested "a3f1c2d4e5b6"; reset_transform_requested "b7"]
    /\ perform bound_only (user_clicks flip_h_btn) st' = Ok tt st'.
Proof.
  assert (Hsingle : reachable bound_only panel_single)
    by (unfold panel_single, panel_fresh; apply reachable_call, reachable_init).
  destruct (group_selection_answers_rotate_and_reset_only bound_only
              ["a3f1c2d4e5b6"; "b7"] [1%nat; 2%nat] panel_single Hsingle (le_n 2))
    as (st' & Hrun & Hev & _ & _ & Hreset & Hinert).
  exists st'; split; [exact Hrun |]; split.
  - rewrite Hreset; simpl; rewrite Hev; reflexivity.
  - apply Hinert; solve [reflexivity | discriminate].
Defined.

(** ** What the panel shows *)

(** X12: [set_selected_fragments] with more than one id shows the number of
    ids in the name label and "Multiple" for size and file, and refreshes
    nothing else: the spin boxes, the check box, the slider, the opacity
    label and the highlighting of the flip buttons keep what they showed
    before the call, although the first fragment of the group becomes the
    current fragment. *)
Theorem group_selection_shows_count_and_keeps_values
    (norm : float -> float -> nat -> float -> float)
    (ids : list string) (frags : list ref) (st : Panel) :
  (1 < List.length ids)%nat ->
  exists st',
    set_selected_fragments norm ids frags st = Ok tt st'
    /\ current_fragment st' = match frags with [] => None | f :: _ => Some f end
    /\ text st' name_label
       = "Group Selection (" ++ str_of_int (Z.of_nat (List.length ids))
         ++ " fragments)"
    /\ text st' size_label = "Size: Multiple"
    /\ text st' file_label = "File: Multiple"
    /\ spin_value st' = spin_value st
    /\ checkbox_checked st' = checkbox_checked st
    /\ slider_value st' = slider_value st
    /\ text st' opacity_label = text st opacity_label
    /\ style_sheet st' = style_sheet st.
Proof.
  intros Hlen.
  apply Nat.ltb_lt in Hlen.
  change (set_selected_fragments norm ids frags st)
    with (update_controls norm
            (with_selection (match frags with [] => None | f :: _ => Some f end)
               ids (1 <? List.length ids)%nat st)).
  rewrite Hlen.
  destruct (update_controls_group_state norm
              (with_selection (match frags with [] => None | f :: _ => Some f end)
                 ids true st) eq_refl)
    as (st' & Hrun & Hsel & _ & Hsv & Hcc & Hsl & Hss & _ & Hop & Hsize & Hfile & _).
  destruct (update_controls_group norm
              (with_selection (match frags with [] => None | f :: _ => Some f end)
                 ids true st) eq_refl)
    as (st'' & Hrun' & _ & _ & _ & _ & _ & Hname & _).
  rewrite Hrun in Hrun'; injection Hrun' as <-.
  unfold selection in Hsel; simpl in Hsel; injection Hsel as Hcf _ _.
  exists st'.
  repeat (split; [assumption |]); assumption.
Qed.

Lemma group_selection_shows_count_and_keeps_values_witness :
  exists st',
    set_selected_fragments bound_only ["b7"; "a3f1c2d4e5b6"; "c9"] [2%nat; 1%nat]
      panel_single = Ok tt st'
    /\ text st' name_label = "Group Selection (3 fragments)"
    /\ current_fragment st' = Some 2%nat
    /\ spin_value st' x_spinbox = 10%float
    /\ text st' opacity_label = "75%".
Proof.
  destruct (group_selection_shows_count_and_keeps_values bound_only
              ["b7"; "a3f1c2d4e5b6"; "c9"] [2%nat; 1%nat] panel_single
              (le_S 2 2 (le_n 2)))
    as (st' & Hrun & Hcf & Hname & _ & _ & Hsv & _ & _ & Hop & _).
  exists st'.
  refine (conj Hrun (conj Hname (conj Hcf (conj _ _)))).
  - rewrite Hsv; reflexivity.
  - rewrite Hop; reflexivity.
Defined.

Lemma update_controls_single_display
    (norm : float -> float -> nat -> float -> float) (st : Panel) (r : ref) :
  current_fragment st = Some r ->
  is_group_selected st = false ->
  text (final (update_controls norm st)) name_label
  = (if String.eqb (Fragment.name (heap st r)) ""
     then "Fragment " ++ str_prefix 8 (Fragment.id (heap st r))
     else Fragment.name (heap st r))
  /\ text (final (update_controls norm st)) size_label
     = "Size: " ++ str_of_int (fst (Fragment.original_size (heap st r)))
       ++ " × " ++ str_of_int (snd (Fragment.original_size (heap st r)))
  /\ text (final (update_controls norm st)) file_label
     = "File: " ++ Fragment.file_path (heap st r)
  /\ (forall st', update_controls norm st = Ok tt st' ->
        style_sheet st' flip_h_btn
        = (if Fragment.flip_horizontal (heap st r) then checked_style else "")
        /\ style_sheet st' flip_v_btn
           = (if Fragment.flip_vertical (heap st r) then checked_style else "")
        /\ (forall w, w <> flip_h_btn -> w <> flip_v_btn ->
                      style_sheet st' w = style_sheet st w)).
Proof.
  intros Hc Hg.
  destruct st as [cf ids g fd sb tx ss sv cc sl h ev];
    simpl in Hc, Hg |- *; subst cf g.
  single_outcomes h r;
    do 3 (split; [reflexivity |]);
    intros st' Hrun; try discriminate Hrun;
    injection Hrun as <-;
    do 2 (split; [reflexivity |]);
    intros w Hh Hv; destruct w; solve [reflexivity | congruence].
Qed.

(** X13: [set_selected_fragment] with a fragment shows the fragment's name,
    or "Fragment " followed by the first eight characters of its id when the
    name is empty, its original size and its file path; the labels are set
    even if the call then raises on the opacity.  When the call returns, the
    horizontal and the vertical flip button are highlighted exactly when the
    fragment is flipped that way, and no other style sheet is touched. *)
Theorem single_selection_shows_fragment_info
    (norm : float -> float -> nat -> float -> float) (st : Panel) (r : ref) :
  text (final (set_selected_fragment norm (Some r) st)) name_label
  = (if String.eqb (Fragment.name (heap st r)) ""
     then "Fragment " ++ str_prefix 8 (Fragment.id (heap st r))
     else Fragment.name (heap st r))
  /\ text (final (set_selected_fragment norm (Some r) st)) size_label
     = "Size: " ++ str_of_int (fst (Fragment.original_size (heap st r)))
       ++ " × " ++ str_of_int (snd (Fragment.original_size (heap st r)))
  /\ text (final (set_selected_fragment norm (Some r) st)) file_label
     = "File: " ++ Fragment.file_path (heap st r)
  /\ (forall st', set_selected_fragment norm (Some r) st = Ok tt st' ->
        style_sheet st' flip_h_btn
        = (if Fragment.flip_horizontal (heap st r) then checked_style else "")
        /\ style_sheet st' flip_v_btn
           = (if Fragment.flip_vertical (heap st r) then checked_style else "")
        /\ (forall w, w <> flip_h_btn -> w <> flip_v_btn ->
                      style_sheet st' w = style_sheet st w)).
Proof.
  change (set_selected_fragment norm (Some r) st)
    with (update_controls norm (with_selection (Some r) [] false st)).
  pose proof (update_controls_single_display norm
                (with_selection (Some r) [] false st) r eq_refl eq_refl) as H.
  cbn [heap with_selection] in H.
  exact H.
Qed.

Lemma single_selection_shows_fragment_info_witness :
  exists st',
    set_selected_fragment bound_only (Some 1%nat) panel_fresh = Ok tt st'
    /\ map (text st') [name_label; size_label; file_label]
       = ["Fragment a3f1c2d4"; "Size: 640 × 480"; "File: /data/a.png"]
    /\ map (style_sheet st') [flip_h_btn; flip_v_btn; reset_btn]
       = [checked_style; ""; "QPushButton { background-color: #d32f2f; }"]
    /\ text (final (set_selected_fragment bound_only (@Some ref 1%nat)
                      panel_fresh_accented)) name_label
       = "Fragment éèàùâêîô".
Proof.
  destruct (single_selection_shows_fragment_info bound_only panel_fresh 1%nat)
    as (Hname & Hsize & Hfile & Hstyle).
  pose proof (proj1 (single_selection_shows_fragment_info bound_only
                       panel_fresh_accented 1%nat)) as Haccented.
  destruct (set_selected_fragment bound_only (@Some ref 1%nat) panel_fresh)
    as [[] st' | e st'] eqn:Hrun; [| vm_compute in Hrun; discriminate Hrun].
  destruct (Hstyle st' eq_refl) as (Hh & Hv & Hrest).
  cbn [final] in Hname, Hsize, Hfile.
  exists st'; split; [exact Hrun |]; split; [| split].
  - unfold map; rewrite Hname, Hsize, Hfile; reflexivity.
  - unfold map.
    rewrite Hh, Hv, (Hrest reset_btn) by discriminate; reflexivity.
  - rewrite Haccented; reflexivity.
Defined.

(** ** The selection calls on every input *)





(** X21: for a fragment whose opacity lies in the data model's 0.0 to 1.0
    the percentage [int(opacity * 100)] exists and lies in 0..100, so
    [set_selected_fragment] returns, the slider takes exactly that
    percentage, its range cutting nothing off, the label shows it followed
    by "%", and the slider's signals are live again. *)
Theorem data_model_opacity_is_shown_as_percentage
    (norm : float -> float -> nat -> float -> float) (st : Panel) (r : ref) :
  in_unit_interval (Fragment.opacity (heap st r)) = true ->
  exists st' p,
    int_of_float (Fragment.opacity (heap st r) * 100)%float = inr p
    /\ 0 <= p <= 100
    /\ set_selected_fragment norm (Some r) st = Ok tt st'
    /\ slider_value st' = p
    /\ text st' opacity_label = str_of_int p ++ "%"
    /\ signals_blocked st' opacity_slider = false.
Proof.
  intros Ho.
  destruct (percent_of_unit_interval _ Ho) as (p & Hp & Hrange).
  change (set_selected_fragment norm (Some r) st)
    with (update_controls norm (with_selection (Some r) [] false st)).
  destruct (update_controls_single norm (with_selection (Some r) [] false st) r
              eq_refl eq_refl)
    as (st' & _ & _ & _ & _ & _ & _ & _ & Hop).
  assert (Hint : - 2 ^ 31 <= p < 2 ^ 31).
  { change (2 ^ 31) with 2147483648; lia. }
  destruct (Hop p Hp Hint) as (Hrun & Hs & Ht & Hb).
  exists st', p.
  refine (conj Hp (conj Hrange (conj Hrun (conj _ (conj Ht _))))).
  - rewrite Hs; lia.
  - apply Hb; simpl; tauto.
Qed.

Lemma data_model_opacity_is_shown_as_percentage_witness :
  exists st',
    set_selected_fragment bound_only (Some 2%nat) panel_single = Ok tt st'
    /\ slider_value st' = 100
    /\ text st' opacity_label = "100%".
Proof.
  destruct (data_model_opacity_is_shown_as_percentage bound_only panel_single
              2%nat eq_refl)
    as (st' & p & Hp & _ & Hrun & Hs & Ht & _).
  assert (Hp100 : p = 100).
  { vm_compute in Hp; injection Hp as <-; reflexivity. }
  rewrite Hp100 in Hs, Ht.
  exists st'; exact (conj Hrun (conj Hs Ht)).
Defined.

(** ** A refresh that raises *)

Lemma update_controls_single_raises
    (norm : float -> float -> nat -> float -> float) (st : Panel) (r : ref)
    (e : exn) (st' : Panel) :
  current_fragment st = Some r ->
  is_group_selected st = false ->
  update_controls norm st = Raise e st' ->
  (int_of_float (Fragment.opacity (heap st r) * 100)%float = inl e
   \/ exists p, int_of_float (Fragment.opacity (heap st r) * 100)%float = inr p
                /\ ~ (- 2 ^ 31 <= p < 2 ^ 31) /\ e = OverflowError)
  /\ signals_blocked st' opacity_slider = true
  /\ slider_value st' = slider_value st
  /\ text st' opacity_label = text st opacity_label
  /\ style_sheet st' = style_sheet st.
Proof.
  intros Hc Hg.
  destruct st as [cf ids g fd sb tx ss sv cc sl h ev];
    simpl in Hc, Hg |- *; subst cf g.
  single_outcomes h r; intros Hrun; try discriminate Hrun;
    injection Hrun as <- <-.
  - split; [left; reflexivity |]; repeat split.
  - split; [| repeat split].
    right; exists p; split; [reflexivity |]; split; [| reflexivity].
    apply orb_true_iff in Hrange; destruct Hrange as [Hlo | Hhi];
      [apply Z.ltb_lt in Hlo | apply Z.leb_le in Hhi]; lia.
Qed.

(** X14: when [set_selected_fragment] with a fragment raises, it is because
    [int(opacity * 100)] raised or gave a number that does not fit a C int,
    and the refresh stops half way: the opacity slider is left with its
    signals blocked, the slider, its label and the flip highlighting still
    show the previous fragment, and from then on moving the slider no longer
    reaches the fragment (no opacity is written, the label is not updated)
    until a later refresh succeeds. *)
Theorem failed_refresh_leaves_slider_blocked
    (norm : float -> float -> nat -> float -> float) (st : Panel) (r : ref)
    (e : exn) (st' : Panel) :
  set_selected_fragment norm (Some r) st = Raise e st' ->
  (int_of_float (Fragment.opacity (heap st r) * 100)%float = inl e
   \/ exists p, int_of_float (Fragment.opacity (heap st r) * 100)%float = inr p
                /\ ~ (- 2 ^ 31 <= p < 2 ^ 31) /\ e = OverflowError)
  /\ signals_blocked st' opacity_slider = true
  /\ slider_value st' = slider_value st
  /\ text st' opacity_label = text st opacity_label
  /\ style_sheet st' = style_sheet st
  /\ (forall v,
        heap (final (perform norm (user_moves_slider v) st')) = heap st'
        /\ text (final (perform norm (user_moves_slider v) st')) opacity_label
           = text st' opacity_label).
Proof.
  change (set_selected_fragment norm (Some r) st)
    with (update_controls norm (with_selection (Some r) [] false st)).
  intros Hrun.
  pose proof (update_controls_single_raises norm
                (with_selection (Some r) [] false st) r e st' eq_refl eq_refl Hrun)
    as H.
  cbn [heap slider_value text style_sheet with_selection] in H.
  destruct H as (Hwhy & Hb & Hsl & Hop & Hss).
  do 5 (split; [assumption |]).
  intros v.
  unfold perform, when_enabled, QSlider_setValue, bind, get, modify.
  destruct (isEnabled st' opacity_slider); [| split; reflexivity].
  destruct ((v <? - 2 ^ 31) || (2 ^ 31 <=? v))%Z; [split; reflexivity |].
  destruct (slider_value st' =? _)%Z; [split; reflexivity |].
  rewrite Hb; destruct st'; split; reflexivity.
Qed.

Lemma failed_refresh_leaves_slider_blocked_witness :
  exists st',
    set_selected_fragment bound_only (Some 1%nat) panel_fresh_broken
    = Raise ValueError st'
    /\ signals_blocked st' opacity_slider = true
    /\ text st' opacity_label = "100%"
    /\ heap (final (perform bound_only (user_moves_slider 40) st')) = heap st'.
Proof.
  destruct (set_selected_fragment bound_only (@Some ref 1%nat) panel_fresh_broken)
    as [[] st' | e st'] eqn:Hrun; [vm_compute in Hrun; discriminate Hrun |].
  assert (He : e = ValueError) by (vm_compute in Hrun; congruence).
  subst e.
  destruct (failed_refresh_leaves_slider_blocked bound_only panel_fresh_broken
              1%nat ValueError st' Hrun)
    as (_ & Hb & _ & Hop & _ & Hdead).
  exists st'; split; [exact Hrun |]; split; [exact Hb |]; split.
  - rewrite Hop; reflexivity.
  - exact (proj1 (Hdead 40)).
Defined.

(** ** The opacity percentage, written and read back *)

Lemma percent_reads_back (v : Z) :
  0 <= v <= 100 ->
  int_of_float (nearest_float v / 100 * 100)%float = inr (reads_back v)
  /\ 0 <= reads_back v <= 100.
Proof.
  intros Hv.
  assert (Hall : forallb
                   (fun n =>
                      match int_of_float
                              (nearest_float (Z.of_nat n) / 100 * 100)%float with
                      | inr p => (p =? reads_back (Z.of_nat n))
                                 && (0 <=? p) && (p <=? 100)
                      | inl _ => false
                      end)%Z (seq 0 101) = true)
    by (vm_compute; reflexivity).
  rewrite forallb_forall in Hall.
  specialize (Hall (Z.to_nat v)).
  rewrite Z2Nat.id in Hall by lia.
  assert (Hin : In (Z.to_nat v) (seq 0 101)) by (apply in_seq; lia).
  apply Hall in Hin.
  destruct (int_of_float (nearest_float v / 100 * 100)) as [e | p];
    [discriminate Hin |].
  apply andb_prop in Hin; destruct Hin as [Hin Hhi].
  apply andb_prop in Hin; destruct Hin as [Heq Hlo].
  apply Z.eqb_eq in Heq; apply Z.leb_le in Hlo, Hhi.
  subst p; split; [reflexivity | lia].
Qed.

(** X15: the opacity percentage does not always survive a refresh.  After
    the opacity slot wrote [v / 100.0] for a slider value [v] from 0 to 100,
    the next [update_controls] shows [int(v / 100.0 * 100)] on the slider
    and its label, which is [v] except for 29, 57 and 58, where it is one
    less; the fragment keeps the opacity that was written, and nothing is
    emitted. *)
Theorem opacity_percent_read_back_after_refresh
    (norm : float -> float -> nat -> float -> float)
    (st : Panel) (r : ref) (v : Z) :
  current_fragment st = Some r ->
  is_group_selected st = false ->
  0 <= v <= 100 ->
  exists st1 st2,
    on_opacity_changed v st = Ok tt st1
    /\ text st1 opacity_label = str_of_int v ++ "%"
    /\ update_controls norm st1 = Ok tt st2
    /\ slider_value st2 = reads_back v
    /\ text st2 opacity_label = str_of_int (reads_back v) ++ "%"
    /\ Fragment.opacity (heap st2 r) = (nearest_float v / 100)%float
    /\ emitted st2 = emitted st.
Proof.
  intros Hc Hg Hv.
  destruct (percent_reads_back v Hv) as [Hback Hrange].
  pose (st1 := with_text (upd (text st) opacity_label (str_of_int v ++ "%"))
                 (with_heap
                    (store_update (heap st) r
                       (Fragment.set_opacity (nearest_float v / 100)%float
                          (heap st r)))
                    st)).
  assert (Hrun1 : on_opacity_changed v st = Ok tt st1).
  { unfold on_opacity_changed, bind, get; rewrite Hc.
    rewrite (float_of_int_slider_range v Hv); reflexivity. }
  assert (Hop1 : Fragment.opacity (heap st1 r) = (nearest_float v / 100)%float).
  { change (heap st1 r)
      with (store_update (heap st) r
              (Fragment.set_opacity (nearest_float v / 100)%float (heap st r)) r).
    unfold store_update; rewrite Nat.eqb_refl; reflexivity. }
  destruct (update_controls_single norm st1 r Hc Hg)
    as (st2 & Hfin & Hev & Hh & _ & _ & _ & _ & Hop).
  rewrite Hop1 in Hop.
  destruct (Hop (reads_back v) Hback ltac:(lia)) as (Hrun2 & Hsl & Hlabel & _).
  exists st1, st2.
  split; [exact Hrun1 |].
  split; [reflexivity |].
  split; [exact Hrun2 |].
  split; [rewrite Hsl; lia |].
  split; [exact Hlabel |].
  split; [rewrite Hh; exact Hop1 | exact Hev].
Qed.

Lemma opacity_percent_read_back_after_refresh_witness :
  exists st1 st2,
    on_opacity_changed 29 panel_single = Ok tt st1
    /\ text st1 opacity_label = "29%"
    /\ update_controls bound_only st1 = Ok tt st2
    /\ slider_value st2 = 28
    /\ text st2 opacity_label = "28%".
Proof.
  destruct (opacity_percent_read_back_after_refresh bound_only panel_single
              1%nat 29 eq_refl eq_refl
              (conj (proj1 (Z.leb_le 0 29) eq_refl) (proj1 (Z.leb_le 29 100) eq_refl)))
    as (st1 & st2 & Hrun1 & Hl1 & Hrun2 & Hsl & Hl2 & _).
  exists st1, st2.
  exact (conj Hrun1 (conj Hl1 (conj Hrun2 (conj Hsl Hl2)))).
Defined.

(** The opacity slot for a slider value: everything it changes. *)
Lemma opacity_slider_writes_fragment_general (st : Panel) (r : ref) (v : Z) :
  current_fragment st = Some r ->
  0 <= v <= 100 ->
  exists st',
    on_opacity_changed v st = Ok tt st'
    /\ Fragment.opacity (heap st' r) = (nearest_float v / 100)%float
    /\ text st' opacity_label = str_of_int v ++ "%"
    /\ emitted st' = emitted st
    /\ slider_value st' = slider_value st.
Proof.
  intros Hc Hv.
  unfold on_opacity_changed, bind, get; rewrite Hc.
  rewrite (float_of_int_slider_range v Hv); simpl.
  eexists; split; [reflexivity |]; simpl.
  unfold store_update; rewrite Nat.eqb_refl; repeat split.
Qed.

Lemma visibility_slot_events (st : Panel) (r : ref) (state : Z) :
  current_fragment st = Some r ->
  on_visibility_changed state st
  = Ok tt (with_emitted
             (emitted st
              ++ [transform_requested (Fragment.id (heap st r)) "set_visibility"
                    (VBool (Z.eqb state Checked))])
             st).
Proof.
  intros Hc; unfold on_visibility_changed, bind, get, attr; rewrite Hc; reflexivity.
Qed.

(** ** The value controls with live signals *)

(** X16: moving the enabled, unblocked opacity slider to a value [v] stores
    [v] bounded to 0..100.  If that is the value the slider already had,
    nothing else happens; otherwise the slot runs with the bounded value, so
    the opacity written to the current fragment is the bounded value over
    100, the label shows the bounded value, and nothing is emitted. *)
Theorem slider_move_writes_bounded_percentage
    (norm : float -> float -> nat -> float -> float)
    (st : Panel) (r : ref) (v : Z) :
  current_fragment st = Some r ->
  isEnabled st opacity_slider = true ->
  signals_blocked st opacity_slider = false ->
  - 2 ^ 31 <= v < 2 ^ 31 ->
  (Z.max 0 (Z.min 100 v) = slider_value st ->
   perform norm (user_moves_slider v) st = Ok tt st)
  /\ (Z.max 0 (Z.min 100 v) <> slider_value st ->
      exists st',
        perform norm (user_moves_slider v) st = Ok tt st'
        /\ slider_value st' = Z.max 0 (Z.min 100 v)
        /\ Fragment.opacity (heap st' r)
           = (nearest_float (Z.max 0 (Z.min 100 v)) / 100)%float
        /\ text st' opacity_label = str_of_int (Z.max 0 (Z.min 100 v)) ++ "%"
        /\ emitted st' = emitted st).
Proof.
  intros Hc He Hb Hr.
  assert (Hrange : ((v <? - 2 ^ 31) || (2 ^ 31 <=? v))%Z = false)
    by (apply orb_false_iff; split; [apply Z.ltb_ge | apply Z.leb_gt]; lia).
  unfold perform, when_enabled, QSlider_setValue, bind, get, modify.
  rewrite He, Hrange, Hb.
  unfold slider_minimum, slider_maximum; cbv zeta.
  split; intros Hv.
  - rewrite Hv, Z.eqb_refl; reflexivity.
  - apply not_eq_sym, Z.eqb_neq in Hv; rewrite Hv.
    destruct (opacity_slider_writes_fragment_general
                (with_slider_value (Z.max 0 (Z.min 100 v)) st) r
                (Z.max 0 (Z.min 100 v)) Hc ltac:(lia))
      as (st' & Hrun & Hop & Htext & Hev & Hsl).
    exists st'; repeat split; assumption.
Qed.

Lemma slider_move_writes_bounded_percentage_witness :
  exists st',
    perform bound_only (user_moves_slider 250) panel_single = Ok tt st'
    /\ slider_value st' = 100
    /\ Fragment.opacity (heap st' 1%nat) = 1%float
    /\ text st' opacity_label = "100%".
Proof.
  destruct (proj2 (slider_move_writes_bounded_percentage bound_only panel_single
                     1%nat 250 eq_refl eq_refl eq_refl
                     (conj (proj1 (Z.leb_le (- 2 ^ 31) 250) eq_refl)
                           (proj1 (Z.ltb_lt 250 (2 ^ 31)) eq_refl)))
              ltac:(discriminate))
    as (st' & Hrun & Hsl & Hop & Htext & _).
  exists st'.
  exact (conj Hrun (conj Hsl (conj Hop Htext))).
Defined.

(** X17: toggling the enabled, unblocked visibility check box to the state
    it already has does nothing; toggling it to the other state stores the
    state and emits exactly one [set_visibility] event for the current
    fragment carrying the new state. *)
Theorem checkbox_toggle_requests_visibility
    (norm : float -> float -> nat -> float -> float)
    (st : Panel) (r : ref) (b : bool) :
  current_fragment st = Some r ->
  isEnabled st visible_checkbox = true ->
  signals_blocked st visible_checkbox = false ->
  (b = checkbox_checked st ->
   perform norm (user_toggles_checkbox b) st = Ok tt st)
  /\ (b <> checkbox_checked st ->
      perform norm (user_toggles_checkbox b) st
      = Ok tt (with_emitted
                 (emitted st
                  ++ [transform_requested (Fragment.id (heap st r))
                        "set_visibility" (VBool b)])
                 (with_checkbox_checked b st))).
Proof.
  intros Hc He Hb.
  unfold perform, when_enabled, QCheckBox_setChecked, bind, get, modify.
  rewrite He, Hb.
  split; intros Hv.
  - rewrite <- Hv, Bool.eqb_reflx; reflexivity.
  - replace (Bool.eqb (checkbox_checked st) b) with false
      by (symmetry; apply Bool.eqb_false_iff; congruence).
    rewrite (visibility_slot_events (with_checkbox_checked b st) r
               (if b then Checked else Unchecked) Hc).
    destruct b; destruct st; reflexivity.
Qed.

Lemma checkbox_toggle_requests_visibility_witness :
  checkbox_checked panel_single = true
  /\ emitted (final (perform bound_only (user_toggles_checkbox false) panel_single))
     = [transform_requested "a3f1c2d4e5b6" "set_visibility" (VBool false)].
Proof.
  refine (conj eq_refl _).
  rewrite (proj2 (checkbox_toggle_requests_visibility bound_only panel_single
                    1%nat false eq_refl eq_refl eq_refl) ltac:(discriminate)).
  reflexivity.
Defined.

Lemma on_position_changed_single (st : Panel) (r : ref) :
  is_group_selected st = false ->
  current_fragment st = Some r ->
  on_position_changed st
  = Ok tt (with_emitted
             (emitted st
              ++ [transform_requested (Fragment.id (heap st r)) "translate"
                    (VTuple
                       [VFloat (spin_value st x_spinbox - Fragment.x (heap st r))%float;
                        VFloat (spin_value st y_spinbox - Fragment.y (heap st r))%float])])
             st).
Proof.
  intros Hg Hc.
  unfold on_position_changed, bind at 1, get at 1; rewrite Hc.
  unfold bind, attr, get, ret.
  apply request_transform_single; assumption.
Qed.

Lemma on_angle_changed_single (st : Panel) (r : ref) :
  is_group_selected st = false ->
  current_fragment st = Some r ->
  on_angle_changed st
  = Ok tt (with_emitted
             (emitted st
              ++ [transform_requested (Fragment.id (heap st r)) "set_rotation"
                    (VFloat (spin_value st angle_spinbox))])
             st).
Proof.
  intros Hg Hc.
  unfold on_angle_changed, bind, get; rewrite Hc.
  apply request_transform_single; assumption.
Qed.

Lemma spinbox_edit_runs_slot
    (norm : float -> float -> nat -> float -> float)
    (st : Panel) (w : Widget) (v : float) :
  is_spinbox w = true ->
  isEnabled st w = true ->
  signals_blocked st w = false ->
  perform norm (user_edits_spinbox w v) st
  = (if PrimFloat.eqb (spin_value st w)
          (norm (fst (spin_range w)) (snd (spin_range w)) 1%nat v)
     then Ok tt
     else valueChanged w)
      (with_spin_value
         (upd (spin_value st) w
            (norm (fst (spin_range w)) (snd (spin_range w)) 1%nat v)) st).
Proof.
  intros Hw He Hb.
  unfold perform; rewrite Hw.
  unfold when_enabled, QDoubleSpinBox_setValue, bind, get, modify, spin_decimals.
  rewrite He, Hb, orb_false_r.
  destruct (PrimFloat.eqb _ _); reflexivity.
Qed.

Lemma spinbox_confirmation_runs_slot
    (norm : float -> float -> nat -> float -> float)
    (st : Panel) (w : Widget) (v : float) :
  is_spinbox w = true ->
  isEnabled st w = true ->
  signals_blocked st w = false ->
  perform norm (user_confirms_spinbox w v) st
  = valueChanged w
      (with_spin_value
         (upd (spin_value st) w
            (norm (fst (spin_range w)) (snd (spin_range w)) 1%nat v)) st).
Proof.
  intros Hw He Hb.
  unfold perform; rewrite Hw.
  unfold when_enabled, QAbstractSpinBox_interpret, bind, get, modify,
    spin_decimals.
  rewrite He, Hb; reflexivity.
Qed.

Lemma valueChanged_single (st : Panel) (r : ref) (w : Widget) :
  is_group_selected st = false ->
  current_fragment st = Some r ->
  is_spinbox w = true ->
  valueChanged w st
  = Ok tt (with_emitted
             (emitted st
              ++ [if Widget_eqb w angle_spinbox
                  then transform_requested (Fragment.id (heap st r))
                         "set_rotation" (VFloat (spin_value st angle_spinbox))
                  else transform_requested (Fragment.id (heap st r))
                         "translate"
                         (VTuple
                            [VFloat (spin_value st x_spinbox
                                     - Fragment.x (heap st r))%float;
                             VFloat (spin_value st y_spinbox
                                     - Fragment.y (heap st r))%float])])
             st).
Proof.
  intros Hg Hc Hw.
  destruct w; try discriminate Hw; simpl.
  - apply (on_angle_changed_single st r Hg Hc).
  - apply (on_position_changed_single st r Hg Hc).
  - apply (on_position_changed_single st r Hg Hc).
Qed.

(** X18: with a single fragment selected, what a user does in an enabled,
    unblocked spin box reaches the slot once per [valueChanged], and each
    run of the slot emits exactly one event: for the X or the Y box a
    [translate] whose delta is the two box values minus the fragment's
    coordinates, for the angle box a [set_rotation] with the angle in the
    box.  A keystroke or step stores what Qt makes of the value and runs
    the slot only if the stored value differs from the one the box had;
    Return stores the value of the text and always runs the slot, so it
    repeats the request even when the value is the one already shown. *)
Theorem spinbox_edit_requests
    (norm : float -> float -> nat -> float -> float)
    (st : Panel) (r : ref) (w : Widget) (v : float) :
  is_group_selected st = false ->
  current_fragment st = Some r ->
  is_spinbox w = true ->
  isEnabled st w = true ->
  signals_blocked st w = false ->
  let stored := norm (fst (spin_range w)) (snd (spin_range w)) 1%nat v in
  let st1 := with_spin_value (upd (spin_value st) w stored) st in
  let requested :=
    Ok tt (with_emitted
             (emitted st
              ++ [if Widget_eqb w angle_spinbox
                  then transform_requested (Fragment.id (heap st r))
                         "set_rotation" (VFloat (spin_value st1 angle_spinbox))
                  else transform_requested (Fragment.id (heap st r))
                         "translate"
                         (VTuple
                            [VFloat (spin_value st1 x_spinbox
                                     - Fragment.x (heap st r))%float;
                             VFloat (spin_value st1 y_spinbox
                                     - Fragment.y (heap st r))%float])])
             st1) in
  perform norm (user_edits_spinbox w v) st
  = (if PrimFloat.eqb (spin_value st w) stored then Ok tt st1 else requested)
  /\ perform norm (user_confirms_spinbox w v) st = requested
  /\ spin_value st1 w = stored.
Proof.
  intros Hg Hc Hw He Hb stored st1 requested.
  rewrite (spinbox_edit_runs_slot norm st w v Hw He Hb).
  rewrite (spinbox_confirmation_runs_slot norm st w v Hw He Hb).
  fold stored; fold st1.
  pose proof (valueChanged_single st1 r w Hg Hc Hw) as Hslot.
  split; [| split].
  - destruct (PrimFloat.eqb (spin_value st w) stored); [reflexivity | exact Hslot].
  - exact Hslot.
  - unfold st1; destruct st; simpl; unfold upd.
    destruct w; try discriminate Hw; reflexivity.
Qed.

Lemma spinbox_edit_requests_witness :
  emitted (final (perform bound_only (user_edits_spinbox y_spinbox 12.5) panel_single))
  = [transform_requested "a3f1c2d4e5b6" "translate"
       (VTuple [VFloat 0; VFloat (-7.5)])]
  /\ emitted (final (perform bound_only (user_edits_spinbox angle_spinbox 400)
                       panel_single))
     = [transform_requested "a3f1c2d4e5b6" "set_rotation" (VFloat 360)]
  /\ emitted (final (perform bound_only (user_edits_spinbox x_spinbox 10)
                       panel_single))
     = []
  /\ emitted (final (perform bound_only (user_confirms_spinbox x_spinbox 10)
                       panel_single))
     = [transform_requested "a3f1c2d4e5b6" "translate"
          (VTuple [VFloat 0; VFloat 0])].
Proof.
  refine (conj _ (conj _ (conj _ _))).
  - rewrite (proj1 (spinbox_edit_requests bound_only panel_single 1%nat y_spinbox
                      12.5 eq_refl eq_refl eq_refl eq_refl eq_refl)).
    reflexivity.
  - rewrite (proj1 (spinbox_edit_requests bound_only panel_single 1%nat
                      angle_spinbox 400 eq_refl eq_refl eq_refl eq_refl eq_refl)).
    reflexivity.
  - rewrite (proj1 (spinbox_edit_requests bound_only panel_single 1%nat x_spinbox
                      10 eq_refl eq_refl eq_refl eq_refl eq_refl)).
    reflexivity.
  - rewrite (proj1 (proj2 (spinbox_edit_requests bound_only panel_single 1%nat
                             x_spinbox 10 eq_refl eq_refl eq_refl eq_refl
                             eq_refl))).
    reflexivity.
Defined.

(** Typing "15" and Return into the X box of a fragment at x = 10 that the
    application has not moved in between: the two keystrokes and the Return
    each reach the slot, so three [translate] requests are emitted. *)
Example typing_15_and_return_emits_three_requests :
  emitted
    (final (perform bound_only (user_confirms_spinbox x_spinbox 15)
       (final (perform bound_only (user_edits_spinbox x_spinbox 15)
          (final (perform bound_only (user_edits_spinbox x_spinbox 1)
             panel_single))))))
  = [transform_requested "a3f1c2d4e5b6" "translate"
       (VTuple [VFloat (-9); VFloat 0]);
     transform_requested "a3f1c2d4e5b6" "translate"
       (VTuple [VFloat 5; VFloat 0]);
     transform_requested "a3f1c2d4e5b6" "translate"
       (VTuple [VFloat 5; VFloat 0])].
Proof. vm_compute; reflexivity. Qed.

(** X19: in a reachable state, once [set_selected_fragment] has selected a
    fragment, a click on a transformation button emits exactly one
    [transform_requested] for that fragment: [rotate_ccw] and [rotate_cw]
    without a value, [rotate_angle] with 45 or -45, [flip_horizontal] and
    [flip_vertical] without a value, [translate] with the arrow's delta; a
    click on the reset button emits exactly one
    [reset_transform_requested].  This holds even if the selecting call
    raised on the opacity. *)
Theorem single_selection_buttons_emit_one_event
    (norm : float -> float -> nat -> float -> float) (st : Panel) (r : ref) :
  reachable norm st ->
  let st' := final (set_selected_fragment norm (Some r) st) in
  (forall b k v,
     In (b, (k, v))
       [(rotate_ccw_btn, ("rotate_ccw", VNone));
        (rotate_cw_btn, ("rotate_cw", VNone));
        (angle_45_btn, ("rotate_angle", VInt 45));
        (angle_neg45_btn, ("rotate_angle", VInt (-45)));
        (flip_h_btn, ("flip_horizontal", VNone));
        (flip_v_btn, ("flip_vertical", VNone));
        (up_btn, ("translate", VTuple [VInt 0; VInt (-10)]));
        (left_btn, ("translate", VTuple [VInt (-10); VInt 0]));
        (center_btn, ("translate", VTuple [VInt 0; VInt 0]));
        (right_btn, ("translate", VTuple [VInt 10; VInt 0]));
        (down_btn, ("translate", VTuple [VInt 0; VInt 10]))] ->
     perform norm (user_clicks b) st'
     = Ok tt (with_emitted
                (emitted st' ++ [transform_requested (Fragment.id (heap st r)) k v])
                st'))
  /\ perform norm (user_clicks reset_btn) st'
     = Ok tt (with_emitted
                (emitted st' ++ [reset_transform_requested (Fragment.id (heap st r))])
                st').
Proof.
  intros Hr st'.
  destruct (reachable_never_forced norm st Hr) as [Hnf _].
  assert (Hon : forall w, isEnabled st' w = true).
  { intros w; unfold st'.
    change (set_selected_fragment norm (Some r) st)
      with (update_controls norm (with_selection (Some r) [] false st)).
    pose proof (update_controls_single_flags norm
                  (with_selection (Some r) [] false st) r eq_refl eq_refl) as F.
    never_forced_facts_of Hnf.
    destruct w; unfold isEnabled; simpl; rewrite !F; simpl;
      rewrite_flags; reflexivity. }
  pose proof (selection_after_set_selected_fragment norm (Some r) st) as Hsel.
  fold st' in Hsel; unfold selection in Hsel; injection Hsel as Hc _ Hg.
  assert (Hh : heap st' = heap st).
  { unfold st'.
    change (set_selected_fragment norm (Some r) st)
      with (update_controls norm (with_selection (Some r) [] false st)).
    rewrite update_controls_heap; reflexivity. }
  split.
  - intros b k v Hin; simpl in Hin.
    unfold perform, when_enabled, bind, get; rewrite Hon.
    rewrite <- Hh.
    repeat (destruct Hin as [Hin | Hin];
            [injection Hin as <- <- <-;
             apply (request_transform_single st' r _ _ Hg Hc) |]).
    destruct Hin.
  - unfold perform, when_enabled, bind, get; rewrite Hon; simpl.
    rewrite <- Hh.
    unfold request_reset, bind at 1, get at 1; rewrite Hg, Hc; reflexivity.
Qed.

Lemma single_selection_buttons_emit_one_event_witness :
  emitted (final (perform bound_only (user_clicks angle_neg45_btn)
                    (final (set_selected_fragment bound_only (@Some ref 2%nat)
                              panel_group))))
  = [transform_requested "b7" "rotate_angle" (VInt (-45))].
Proof.
  rewrite (proj1 (single_selection_buttons_emit_one_event bound_only panel_group
                    2%nat panel_group_reachable)
             angle_neg45_btn "rotate_angle" (VInt (-45))
             ltac:(simpl; tauto)).
  reflexivity.
Defined.

(** ** A group call with at most one id *)

(** X20: [set_selected_fragments] with at most one id does not enter group
    mode.  If a fragment list is given, its first fragment becomes the
    single selection, and requests and resets are then addressed to that
    fragment's own id; the id that was passed is stored but never used.
    If the fragment list is empty nothing is selected and requests emit
    nothing. *)
Theorem one_id_group_call_selects_first_fragment
    (norm : float -> float -> nat -> float -> float)
    (ids : list string) (frags : list ref) (st : Panel) :
  (List.length ids <= 1)%nat ->
  let st' := final (set_selected_fragments norm ids frags st) in
  is_group_selected st' = false
  /\ selected_fragment_ids st' = ids
  /\ (forall r rest k v, frags = r :: rest ->
        request_transform k v st'
        = Ok tt (with_emitted
                   (emitted st' ++ [transform_requested (Fragment.id (heap st r)) k v])
                   st')
        /\ request_reset st'
           = Ok tt (with_emitted
                      (emitted st'
                       ++ [reset_transform_requested (Fragment.id (heap st r))])
                      st'))
  /\ (frags = [] ->
      (forall k v, request_transform k v st' = Ok tt st')
      /\ request_reset st' = Ok tt st').
Proof.
  intros Hlen st'.
  pose proof (selection_after_set_selected_fragments norm ids frags st) as Hsel.
  fold st' in Hsel; unfold selection in Hsel; injection Hsel as Hc Hids Hg.
  replace (1 <? List.length ids)%nat with false in Hg
    by (symmetry; apply Nat.ltb_ge; exact Hlen).
  assert (Hh : heap st' = heap st).
  { unfold st'.
    change (set_selected_fragments norm ids frags st)
      with (update_controls norm
              (with_selection (match frags with [] => None | f :: _ => Some f end)
                 ids (1 <? List.length ids)%nat st)).
    rewrite update_controls_heap; reflexivity. }
  split; [exact Hg |]; split; [exact Hids |]; split.
  - intros r rest k v ->; rewrite <- Hh; split.
    + apply request_transform_single; assumption.
    + unfold request_reset, bind at 1, get at 1; rewrite Hg, Hc; reflexivity.
  - intros ->; split.
    + intros k v; apply request_transform_none; assumption.
    + unfold request_reset, bind, get; rewrite Hg, Hc; reflexivity.
Qed.

Lemma one_id_group_call_selects_first_fragment_witness :
  emitted (final (request_reset
                    (final (set_selected_fragments bound_only ["zz"] [2%nat]
                              panel_fresh))))
  = [reset_transform_requested "b7"].
Proof.
  rewrite (proj2 (proj1 (proj2 (proj2
             (one_id_group_call_selects_first_fragment bound_only ["zz"] [2%nat]
                panel_fresh (le_n 1)))) 2%nat [] "" VNone eq_refl)).
  reflexivity.
Defined.
